(** * axanet-python: customer records, name index and normaliser

    A shallow embedding of [app.py]: the name normaliser, the JSON
    customer records kept one per file under [data/clients/], the
    name-to-file index persisted in [data/index.json], and the console
    operations create / consult / modify / delete, followed by the
    properties of the persistence-and-indexing core.

    Python strings are sequences of Unicode code points; they are
    modelled as [list N].  Files, standard input and output, the UUID
    generator and the clock are fields of an explicit [world]; a Python
    exception is the [Raise] outcome of the small state-and-error monad
    [M]. *)

From Stdlib Require Import NArith ZArith List Bool Ascii String Lia.
From stdpp Require Import base option list gmap.

Local Open Scope N_scope.
Local Open Scope list_scope.

(** ** Strings *)

Abbreviation str := (list N).

(** An ASCII literal of the source as a sequence of code points. *)
Definition lit (s : string) : str :=
  List.map N_of_ascii (list_ascii_of_string s).
Arguments lit s%_string : simpl never.

(** [Py_UNICODE_ISSPACE]: the code points that [str.strip()],
    [str.isspace()] and the regular expression class [\s] (on [str]
    patterns) treat as whitespace. *)
Definition isspace (c : N) : bool :=
  ((9 <=? c) && (c <=? 13)) || ((28 <=? c) && (c <=? 32))
  || (c =? 133) || (c =? 160) || (c =? 5760)
  || ((8192 <=? c) && (c <=? 8202))
  || (c =? 8232) || (c =? 8233) || (c =? 8239) || (c =? 8287)
  || (c =? 12288).

Fixpoint lstrip (s : str) : str :=
  match s with
  | [] => []
  | c :: t => if isspace c then lstrip t else s
  end.

Fixpoint rstrip (s : str) : str :=
  match s with
  | [] => []
  | c :: t =>
      match rstrip t with
      | [] => if isspace c then [] else [c]
      | r => c :: r
      end
  end.

(** [s.strip()] *)
Definition strip (s : str) : str := rstrip (lstrip s).

(** [not v] for a string [v]: the empty string is falsy. *)
Definition is_empty (s : str) : bool :=
  match s with [] => true | _ => false end.

(** [re.sub(r"[...]", repl, s)] for a class of single code points and a
    one-character replacement. *)
Definition re_sub_class (cls : list N) (repl : N) (s : str) : str :=
  List.map (fun c => if existsb (N.eqb c) cls then repl else c) s.

(** The class [a-z0-9 ] of line 28. *)
Definition in_az09sp (c : N) : bool :=
  ((97 <=? c) && (c <=? 122)) || ((48 <=? c) && (c <=? 57)) || (c =? 32).

(** [re.sub(r"[^a-z0-9 ]", "", s)] *)
Definition re_sub_not_az09sp (s : str) : str := List.filter in_az09sp s.

(** [re.sub(r"\s+", " ", s)]: every maximal run of whitespace becomes
    one space; [in_run] tells that the previous code point was
    whitespace. *)
Fixpoint sub_ws_runs (in_run : bool) (s : str) : str :=
  match s with
  | [] => []
  | c :: t =>
      if isspace c
      then (if in_run then sub_ws_runs true t else 32 :: sub_ws_runs true t)
      else c :: sub_ws_runs false t
  end.

Definition re_sub_ws (s : str) : str := sub_ws_runs false s.

(** [s.replace(" ", "-")] *)
Definition replace_space_hyphen (s : str) : str :=
  List.map (fun c => if c =? 32 then 45 else c) s.

(** A lowercase table for the strings used in examples: it agrees with
    [str.lower()] on every string whose code points are below U+0100
    (ASCII and Latin-1: A-Z and the capitals U+00C0..U+00DE other than
    the multiplication sign U+00D7 move up by 32). *)
Definition lower_cp (c : N) : N :=
  if (65 <=? c) && (c <=? 90) then c + 32
  else if (192 <=? c) && (c <=? 222) && negb (c =? 215) then c + 32
  else c.

Definition lower_latin1 (s : str) : str := List.map lower_cp s.

(** ** JSON values and Python dictionaries *)

#[local] Set Warnings "-register-all".

(** What [json.load] returns and [json.dump] writes.  A [dict] keeps its
    keys in insertion order, so an object is a list of members; numbers
    are restricted to integers (the program writes none). *)
Inductive json : Type :=
| JNull
| JBool (b : bool)
| JInt (z : Z)
| JStr (s : str)
| JArr (items : list json)
| JObj (members : list (str * json)).

(** [d[k]] and [d.get(k)] on a dict. *)
Fixpoint dict_get (k : str) (d : list (str * json)) : option json :=
  match d with
  | [] => None
  | (k', v) :: t => if decide (k' = k) then Some v else dict_get k t
  end.

(** [d[k] = v]: an existing key keeps its position, a new key goes last. *)
Fixpoint dict_set (k : str) (v : json) (d : list (str * json))
  : list (str * json) :=
  match d with
  | [] => [(k, v)]
  | (k', v') :: t =>
      if decide (k' = k) then (k, v) :: t else (k', v') :: dict_set k v t
  end.

(** ** The world: files, console, UUID generator and clock *)

(** The text of a record file: JSON text (held as the value it parses
    to, so that [json.dump] followed by [json.load] is the identity) or
    text that [json.load] rejects. *)
Inductive file_text : Type :=
| Json_text (v : json)
| Bad_text.

(** The text of [data/index.json]: a JSON object from keys to file
    names, as [save_index] writes it, or text that [json.load] rejects. *)
Inductive index_text : Type :=
| Index_text (m : gmap str str)
| Bad_index.

Inductive prompt : Type :=
| Ask_nombre            (* "Nombre del cliente: " *)
| Ask_tipo              (* "Tipo (Persona/Negocio) [Persona]: " *)
| Ask_contacto          (* "Contacto (tel/email opcional) [N/A]: " *)
| Ask_servicio          (* "Servicio (Telefonia/Internet/TV): " *)
| Ask_descripcion       (* "Descripcion del servicio: " *)
| Ask_opcion            (* "Opcion: " *)
| Ask_nuevo_contacto    (* "Nuevo contacto: " *)
| Ask_borrar (name : str) (* "Borrar '{name}'? (si/no): " *)
| Ask_elige             (* "Elige opcion: " *)
| Ask_enter.            (* "Presiona ENTER para continuar..." *)

(** One constructor per text the program writes to standard output. *)
Inductive printed : Type :=
| Prompt (p : prompt)
| No_puede_ir_vacio
| No_hay_clientes
| Lista_de_clientes
| Entrada (k filename : str)
| Ya_existe_ese_cliente
| Cliente_creado (name : str)
| Archivo (filename : str)
| Cliente_no_encontrado
| Json_dumps (v : json)
| Consulta_registrada
| Menu_contacto
| Menu_solicitud
| Contacto_actualizado
| Solicitud_agregada
| Opcion_invalida
| Cambios_guardados
| Cancelado
| Cliente_eliminado
| Menu_titulo | Menu_listar | Menu_consultar | Menu_crear
| Menu_modificar | Menu_borrar | Menu_salir
| Saliendo.

(** [clients_dir] maps a file name [f] to the text of the file
    [data/clients/f]; [stdin] holds the lines still to be read, without
    their newline; the [n]-th call of [uuid.uuid4()] yields
    [uuid4_source n] and the [n]-th reading of the clock is formatted as
    [clock n]. *)
Record world : Type := World {
  clients_dir : gmap str file_text;
  index_file : option index_text;
  queries_log : list str;
  stdin : list str;
  stdout : list printed;
  uuid4_source : nat -> str;
  uuid4_calls : nat;
  clock : nat -> str;
  clock_reads : nat
}.

Definition with_clients_dir (d : gmap str file_text) (w : world) : world :=
  World d (index_file w) (queries_log w) (stdin w) (stdout w)
        (uuid4_source w) (uuid4_calls w) (clock w) (clock_reads w).

Definition with_index_file (i : option index_text) (w : world) : world :=
  World (clients_dir w) i (queries_log w) (stdin w) (stdout w)
        (uuid4_source w) (uuid4_calls w) (clock w) (clock_reads w).

Definition with_queries_log (l : list str) (w : world) : world :=
  World (clients_dir w) (index_file w) l (stdin w) (stdout w)
        (uuid4_source w) (uuid4_calls w) (clock w) (clock_reads w).

Definition with_stdin (l : list str) (w : world) : world :=
  World (clients_dir w) (index_file w) (queries_log w) l (stdout w)
        (uuid4_source w) (uuid4_calls w) (clock w) (clock_reads w).

Definition with_stdout (l : list printed) (w : world) : world :=
  World (clients_dir w) (index_file w) (queries_log w) (stdin w) l
        (uuid4_source w) (uuid4_calls w) (clock w) (clock_reads w).

Definition with_uuid4_calls (n : nat) (w : world) : world :=
  World (clients_dir w) (index_file w) (queries_log w) (stdin w) (stdout w)
        (uuid4_source w) n (clock w) (clock_reads w).

Definition with_clock_reads (n : nat) (w : world) : world :=
  World (clients_dir w) (index_file w) (queries_log w) (stdin w) (stdout w)
        (uuid4_source w) (uuid4_calls w) (clock w) n.

(** ** The state-and-exception monad *)

Inductive exn : Type :=
| EOFError | FileNotFoundError | JSONDecodeError
| KeyError | TypeError | AttributeError.

Inductive outcome (A : Type) : Type :=
| Ret (a : A) (w : world)
| Raise (e : exn) (w : world).
Arguments Ret {A} a w.
Arguments Raise {A} e w.

Definition M (A : Type) : Type := world -> outcome A.

Definition ret {A} (a : A) : M A := fun w => Ret a w.

Definition raise {A} (e : exn) : M A := fun w => Raise e w.

Definition bind {A B} (m : M A) (k : A -> M B) : M B :=
  fun w => match m w with
           | Ret a w' => k a w'
           | Raise e w' => Raise e w'
           end.

Declare Scope py_scope.
Delimit Scope py_scope with py.
Notation "x <- m ;; k" := (bind m (fun x => k))
  (at level 100, m at next level, right associativity) : py_scope.
Notation "m ;; k" := (bind m (fun _ => k))
  (at level 100, right associativity) : py_scope.

(** The world in which a computation stops, normally or not. *)
Definition final_world {A} (o : outcome A) : world :=
  match o with Ret _ w => w | Raise _ w => w end.

(** ** Primitives of the Python runtime *)

Local Open Scope py_scope.

(** [input(prompt)]: writes the prompt, reads one line, raises
    [EOFError] at the end of the input. *)
Definition py_input (p : prompt) : M str :=
  fun w =>
    let w := with_stdout (stdout w ++ [Prompt p]) w in
    match stdin w with
    | [] => Raise EOFError w
    | l :: rest => Ret l (with_stdin rest w)
    end.

(** [print(...)] *)
Definition py_print (p : printed) : M unit :=
  fun w => Ret tt (with_stdout (stdout w ++ [p]) w).

(** [str(uuid.uuid4())] *)
Definition uuid4 : M str :=
  fun w => Ret (uuid4_source w (uuid4_calls w))
               (with_uuid4_calls (S (uuid4_calls w)) w).

(** Lines 18-19. *)
Definition now_iso : M str :=
  fun w => Ret (clock w (clock_reads w))
               (with_clock_reads (S (clock_reads w)) w).

(** [(CLIENTS_DIR / filename).exists()] *)
Definition path_exists (filename : str) : M bool :=
  fun w => Ret (bool_decide (is_Some (clients_dir w !! filename))) w.

(** [with open(path, "r") as f: json.load(f)] *)
Definition json_load (filename : str) : M json :=
  fun w =>
    match clients_dir w !! filename with
    | None => Raise FileNotFoundError w
    | Some Bad_text => Raise JSONDecodeError w
    | Some (Json_text v) => Ret v w
    end.

(** [with open(path, "w") as f: json.dump(v, f, ...)] *)
Definition json_dump (filename : str) (v : json) : M unit :=
  fun w => Ret tt (with_clients_dir (<[filename := Json_text v]> (clients_dir w)) w).

(** [os.remove(path)]: raises [FileNotFoundError] when there is no such
    file. *)
Definition os_remove (filename : str) : M unit :=
  fun w =>
    match clients_dir w !! filename with
    | None => Raise FileNotFoundError w
    | Some _ => Ret tt (with_clients_dir (delete filename (clients_dir w)) w)
    end.

(** [with open(QUERIES_LOG, "a") as log: log.write(line)] *)
Definition log_append (line : str) : M unit :=
  fun w => Ret tt (with_queries_log (queries_log w ++ [line]) w).

(** [v[k]] for a string [k]: only a dict can be indexed by a string. *)
Definition getitem (v : json) (k : str) : M json :=
  match v with
  | JObj d => match dict_get k d with
              | Some x => ret x
              | None => raise KeyError
              end
  | _ => raise TypeError
  end.

(** [v[k] = x] for a string [k]. *)
Definition setitem (v : json) (k : str) (x : json) : M json :=
  match v with
  | JObj d => ret (JObj (dict_set k x d))
  | _ => raise TypeError
  end.

(** [v.append]: only a list has the method. *)
Definition getattr_append (v : json) : M (list json) :=
  match v with
  | JArr l => ret l
  | _ => raise AttributeError
  end.

(** Lines 35-39. *)
Definition load_index : M (gmap str str) :=
  fun w =>
    match index_file w with
    | None => Ret ∅ w
    | Some (Index_text m) => Ret m w
    | Some Bad_index => Raise JSONDecodeError w
    end.

(** Lines 41-44. *)
Definition save_index (index : gmap str str) : M unit :=
  fun w => Ret tt (with_index_file (Some (Index_text index)) w).

(** Lines 46-51. *)
Definition require_non_empty (p : prompt) : M str :=
  v <- py_input p ;;
  let v := strip v in
  if is_empty v then (py_print No_puede_ir_vacio ;; ret []) else ret v.

(** Lines 53-54. *)
Definition press_enter : M unit :=
  _ <- py_input Ask_enter ;; ret tt.

(** The return statement an operation leaves by.  Every operation
    returns [None]; the paths differ in what they print and change. *)
Inductive status : Type :=
| Empty_input        (* after "No puede ir vacio." *)
| Conflict           (* after "Ya existe ese cliente." *)
| Not_found          (* after "Cliente no encontrado." *)
| Invalid_selector   (* after "Opcion invalida." *)
| Cancelled          (* after "Cancelado." *)
| Done.              (* the end of the function *)

(** The service request dict of lines 94-100 and 173-179. *)
Definition solicitud (request_id servicio descripcion fecha : str) : json :=
  JObj [ (lit "request_id", JStr request_id);
         (lit "servicio", JStr servicio);
         (lit "descripcion", JStr descripcion);
         (lit "fecha_solicitud", JStr fecha);
         (lit "canal", JStr (lit "call center")) ].

(** [s or default] *)
Definition or_default (s default : str) : str :=
  if is_empty s then default else s.

(** ** The program *)

Section App.

(** [str.lower()] of the Python runtime: the Unicode lowercase mapping
    is a table of the interpreter, not of this program, and is context
    dependent (final sigma), so it is taken as a function on whole
    strings. *)
Variable str_lower : str -> str.

(** Lines 21-30. *)
Definition normalize_name (name : str) : str :=
  let name := str_lower (strip name) in
  (* [áàä] -> a : U+00E1, U+00E0, U+00E4 *)
  let name := re_sub_class [225; 224; 228] 97 name in
  (* [éèë] -> e : U+00E9, U+00E8, U+00EB *)
  let name := re_sub_class [233; 232; 235] 101 name in
  (* [íìï] -> i : U+00ED, U+00EC, U+00EF *)
  let name := re_sub_class [237; 236; 239] 105 name in
  (* [óòö] -> o : U+00F3, U+00F2, U+00F6 *)
  let name := re_sub_class [243; 242; 246] 111 name in
  (* [úùü] -> u : U+00FA, U+00F9, U+00FC *)
  let name := re_sub_class [250; 249; 252] 117 name in
  let name := re_sub_not_az09sp name in
  let name := re_sub_ws name in
  name.

(** Lines 32-33. *)
Definition slugify (name : str) : str :=
  replace_space_hyphen (normalize_name name).

(** ** The client service *)

(** Lines 56-62.  The entries are printed in the order of
    [map_to_list], not in the insertion order of the Python dict. *)
Definition list_clients (index : gmap str str) : M unit :=
  if bool_decide (index = ∅) then py_print No_hay_clientes
  else
    py_print Lista_de_clientes ;;
    foldr (fun kf rest => py_print (Entrada kf.1 kf.2) ;; rest)
          (ret tt) (map_to_list index).

(** Lines 64-111.  The dict [index] is updated in place by the source;
    the model returns the updated mapping. *)
Definition create_client (index : gmap str str)
  : M (status * gmap str str) :=
  name <- require_non_empty Ask_nombre ;;
  if is_empty name then ret (Empty_input, index) else
  let key := normalize_name name in
  if bool_decide (is_Some (index !! key)) then
    py_print Ya_existe_ese_cliente ;; ret (Conflict, index)
  else
  tipo <- py_input Ask_tipo ;;
  let tipo := or_default (strip tipo) (lit "Persona") in
  contacto <- py_input Ask_contacto ;;
  let contacto := or_default (strip contacto) (lit "N/A") in
  servicio <- require_non_empty Ask_servicio ;;
  if is_empty servicio then ret (Empty_input, index) else
  descripcion <- require_non_empty Ask_descripcion ;;
  if is_empty descripcion then ret (Empty_input, index) else
  customer_id <- uuid4 ;;
  let filename := customer_id ++ lit "_" ++ slugify name ++ lit ".json" in
  fecha_alta <- now_iso ;;
  request_id <- uuid4 ;;
  fecha_solicitud <- now_iso ;;
  let cliente :=
    JObj [ (lit "customer_id", JStr customer_id);
           (lit "nombre", JStr name);
           (lit "tipo_cliente", JStr tipo);
           (lit "contacto", JStr contacto);
           (lit "fecha_alta", JStr fecha_alta);
           (lit "solicitudes",
            JArr [solicitud request_id servicio descripcion fecha_solicitud]) ] in
  json_dump filename cliente ;;
  let index := <[key := filename]> index in
  save_index index ;;
  py_print (Cliente_creado name) ;;
  py_print (Archivo filename) ;;
  ret (Done, index).

(** Lines 113-121.  The result is the file name under [CLIENTS_DIR];
    [not filename] holds for a missing key and for an empty name. *)
Definition find_client_file (index : gmap str str) (name : str)
  : M (option str) :=
  let key := normalize_name name in
  match index !! key with
  | None => ret None
  | Some filename =>
      if is_empty filename then ret None else
      e <- path_exists filename ;;
      if e then ret (Some filename) else ret None
  end.

(** Lines 123-141. *)
Definition consult_client (index : gmap str str) : M status :=
  name <- require_non_empty Ask_nombre ;;
  if is_empty name then ret Empty_input else
  path <- find_client_file index name ;;
  match path with
  | None => py_print Cliente_no_encontrado ;; ret Not_found
  | Some path =>
      cliente <- json_load path ;;
      py_print (Json_dumps cliente) ;;
      t <- now_iso ;;
      log_append (t ++ lit " | CONSULTA | " ++ name) ;;
      py_print Consulta_registrada ;;
      ret Done
  end.

(** Lines 143-188.  The two branches of the selector either leave the
    function early ([inl]) or yield the updated record ([inr]), which
    lines 185-188 write back. *)
Definition modify_client (index : gmap str str) : M status :=
  name <- require_non_empty Ask_nombre ;;
  if is_empty name then ret Empty_input else
  path <- find_client_file index name ;;
  match path with
  | None => py_print Cliente_no_encontrado ;; ret Not_found
  | Some path =>
      cliente <- json_load path ;;
      py_print Menu_contacto ;;
      py_print Menu_solicitud ;;
      opt <- py_input Ask_opcion ;;
      let opt := strip opt in
      r <- (if bool_decide (opt = lit "1") then
              nuevo <- require_non_empty Ask_nuevo_contacto ;;
              if is_empty nuevo then ret (inl Empty_input) else
              cliente <- setitem cliente (lit "contacto") (JStr nuevo) ;;
              py_print Contacto_actualizado ;;
              ret (inr cliente)
            else if bool_decide (opt = lit "2") then
              servicio <- require_non_empty Ask_servicio ;;
              if is_empty servicio then ret (inl Empty_input) else
              descripcion <- require_non_empty Ask_descripcion ;;
              if is_empty descripcion then ret (inl Empty_input) else
              solicitudes <- getitem cliente (lit "solicitudes") ;;
              solicitudes <- getattr_append solicitudes ;;
              request_id <- uuid4 ;;
              fecha <- now_iso ;;
              cliente <- setitem cliente (lit "solicitudes")
                (JArr (solicitudes ++
                       [solicitud request_id servicio descripcion fecha])) ;;
              py_print Solicitud_agregada ;;
              ret (inr cliente)
            else
              py_print Opcion_invalida ;; ret (inl Invalid_selector)) ;;
      match r with
      | inl st => ret st
      | inr cliente =>
          json_dump path cliente ;;
          py_print Cambios_guardados ;;
          ret Done
      end
  end.

(** Lines 190-211. *)
Definition delete_client (index : gmap str str)
  : M (status * gmap str str) :=
  name <- require_non_empty Ask_nombre ;;
  if is_empty name then ret (Empty_input, index) else
  let key := normalize_name name in
  path <- find_client_file index name ;;
  match path with
  | None => py_print Cliente_no_encontrado ;; ret (Not_found, index)
  | Some path =>
      confirm <- py_input (Ask_borrar name) ;;
      let confirm := str_lower (strip confirm) in
      if negb (bool_decide (confirm = lit "si")) then
        py_print Cancelado ;; ret (Cancelled, index)
      else
      os_remove path ;;
      index <- (if bool_decide (is_Some (index !! key)) then
                  let index := delete key index in
                  save_index index ;; ret index
                else ret index) ;;
      py_print Cliente_eliminado ;;
      ret (Done, index)
  end.

(** Lines 213-248.  [fuel] bounds the number of iterations of the
    [while True] loop; a run that uses the fuel up is cut there. *)
Fixpoint main_loop (fuel : nat) (index : gmap str str) : M unit :=
  match fuel with
  | O => ret tt
  | S fuel =>
      py_print Menu_titulo ;; py_print Menu_listar ;;
      py_print Menu_consultar ;; py_print Menu_crear ;;
      py_print Menu_modificar ;; py_print Menu_borrar ;;
      py_print Menu_salir ;;
      opt <- py_input Ask_elige ;;
      let opt := strip opt in
      if bool_decide (opt = lit "1") then
        list_clients index ;; press_enter ;; main_loop fuel index
      else if bool_decide (opt = lit "2") then
        consult_client index ;; press_enter ;; main_loop fuel index
      else if bool_decide (opt = lit "3") then
        create_client index ;;
        index <- load_index ;;
        press_enter ;; main_loop fuel index
      else if bool_decide (opt = lit "4") then
        modify_client index ;; press_enter ;; main_loop fuel index
      else if bool_decide (opt = lit "5") then
        delete_client index ;;
        index <- load_index ;;
        press_enter ;; main_loop fuel index
      else if bool_decide (opt = lit "0") then
        py_print Saliendo
      else
        py_print Opcion_invalida ;; main_loop fuel index
  end.

Definition main (fuel : nat) : M unit :=
  index <- load_index ;; main_loop fuel index.

(** [single_spaced b s]: every whitespace code point of [s] is a space
    and is not preceded by whitespace ([b] tells whether whitespace
    precedes [s]). *)
Fixpoint single_spaced (b : bool) (s : str) : Prop :=
  match s with
  | [] => True
  | c :: t =>
      if isspace c then c = 32 /\ b = false /\ single_spaced true t
      else single_spaced false t
  end.

(** ** Vocabulary of the statements *)

(** The persisted state: record files, index file and query log. *)
Definition same_store (w w' : world) : Prop :=
  clients_dir w' = clients_dir w /\
  index_file w' = index_file w /\
  queries_log w' = queries_log w.





(** [n] successive calls of [modify_client] with the same in-memory
    index, as the menu loop makes them (it does not reload the index
    after a modification); the statuses are collected in order. *)
Fixpoint modify_many (n : nat) (index : gmap str str) : M (list status) :=
  match n with
  | O => ret []
  | S n =>
      st <- modify_client index ;;
      sts <- modify_many n index ;;
      ret (st :: sts)
  end.

(** The four lines one "add a service request" modification reads:
    customer name, selector, service and description. *)
Definition append_lines (it : str * str * str * str) : list str :=
  let '(name, opt, servicio, descripcion) := it in
  [name; opt; servicio; descripcion].

(** The requests that a series of such modifications appends, the first
    one built from the [un]-th UUID and the [cn]-th clock reading. *)
Fixpoint new_requests (us : nat -> str) (ck : nat -> str) (un cn : nat)
  (items : list (str * str * str * str)) : list json :=
  match items with
  | [] => []
  | (_, _, servicio, descripcion) :: rest =>
      solicitud (us un) (strip servicio) (strip descripcion) (ck cn)
      :: new_requests us ck (S un) (S cn) rest
  end.

(** One modification of a record dict: the contact is replaced, or one
    request is appended to the list under [solicitudes]. *)
Definition dict_step (d d' : list (str * json)) : Prop :=
  (exists v, d' = dict_set (lit "contacto") (JStr v) d) \/
  (exists l x, dict_get (lit "solicitudes") d = Some (JArr l) /\
               d' = dict_set (lit "solicitudes") (JArr (l ++ [x])) d).

(** The lines of a valid "add a service request" modification of the
    customer filed under [f]. *)
Definition valid_append (index : gmap str str) (f : str)
  (it : str * str * str * str) : Prop :=
  let '(name, opt, servicio, descripcion) := it in
  strip name <> [] /\
  index !! normalize_name name = Some f /\
  strip opt = lit "2" /\
  strip servicio <> [] /\
  strip descripcion <> [].

(** ** Sample data *)

Definition demo_uuid (n : nat) : str := lit "id" ++ [48 + N.of_nat n].

Definition demo_clock (n : nat) : str :=
  lit "2024-05-01 10:00:0" ++ [48 + N.of_nat n].

(** An empty installation reading [lines]. *)
Definition empty_world (lines : list str) : world :=
  World ∅ None [] lines [] demo_uuid 0 demo_clock 0.

Definition ana_file : str := lit "id0_ana.json".

Definition ana_request : json :=
  solicitud (lit "id1") (lit "Internet") (lit "Alta") (lit "2024-05-01 10:00:01").

Definition ana_record : list (str * json) :=
  [ (lit "customer_id", JStr (lit "id0"));
    (lit "nombre", JStr (lit "Ana"));
    (lit "tipo_cliente", JStr (lit "Persona"));
    (lit "contacto", JStr (lit "N/A"));
    (lit "fecha_alta", JStr (lit "2024-05-01 10:00:00"));
    (lit "solicitudes", JArr [ana_request]) ].

Definition ana_index : gmap str str := {[ lit "ana" := ana_file ]}.

(** The installation after the customer "Ana" was created, reading
    [lines]. *)
Definition ana_world (lines : list str) : world :=
  World {[ ana_file := Json_text (JObj ana_record) ]}
        (Some (Index_text ana_index)) [] lines [] demo_uuid 2 demo_clock 2.

(** The same installation with the record file lost: the index entry is
    stale. *)
Definition stale_world (lines : list str) : world :=
  World ∅ (Some (Index_text ana_index)) [] lines [] demo_uuid 2 demo_clock 2.

(** The index after a customer named "!!!" was created: its key is the
    empty string. *)
Definition punct_index : gmap str str := {[ [] := lit "id0_.json" ]}.

(** The same installation with a record file that is not JSON. *)
Definition corrupt_world (lines : list str) : world :=
  World {[ ana_file := Bad_text ]}
        (Some (Index_text ana_index)) [] lines [] demo_uuid 2 demo_clock 2.

(** ** Vocabulary of the further properties *)

(** The alphabet of a slug: lowercase ASCII letters, digits, hyphen. *)
Definition in_az09hy (c : N) : bool :=
  ((97 <=? c) && (c <=? 122)) || ((48 <=? c) && (c <=? 57)) || (c =? 45).

(** Reading the index file yields [index]: the file holds it, or there
    is no file and [index] is empty. *)
Definition in_sync (index : gmap str str) (w : world) : Prop :=
  load_index w = Ret index w.

(** Every entry of the index names a record file that exists. *)
Definition resolvable (index : gmap str str) (w : world) : Prop :=
  forall k f, index !! k = Some f -> f <> [] /\ is_Some (clients_dir w !! f).

(** No two keys of the index name the same file. *)
Definition one_file_per_key (index : gmap str str) : Prop :=
  forall k1 k2 f, index !! k1 = Some f -> index !! k2 = Some f -> k1 = k2.

(** The line [consult_client] appends to the query log. *)
Definition consulta_line (t name : str) : str :=
  t ++ lit " | CONSULTA | " ++ name.

(** [m] only consumes input: when it returns, no more lines are left to
    read than before. *)
Definition reads_forward {A} (m : M A) : Prop :=
  forall w a w', m w = Ret a w' -> (length (stdin w') <= length (stdin w))%nat.

(** The way the program stops when it is not cut short: by an exception,
    or by option "0", whose last words are "Saliendo...". *)
Definition ended {A} (o : outcome A) : Prop :=
  match o with
  | Raise _ _ => True
  | Ret _ w => last (stdout w) = Some Saliendo
  end.

(** ** Properties of the string functions *)

Lemma isspace_32 : isspace 32 = true.
Proof. reflexivity. Qed.

Lemma in_az09sp_space (c : N) :
  in_az09sp c = true -> isspace c = true -> c = 32.
Proof.
  unfold in_az09sp, isspace. intros Hc Hs.
  destruct (N.eq_dec c 32) as [E|Hne]; [exact E|].
  repeat (apply orb_prop in Hc as [Hc|Hc]);
    repeat (apply orb_prop in Hs as [Hs|Hs]);
    repeat match goal with
           | H : (_ && _) = true |- _ => apply andb_prop in H as [? ?]
           | H : (_ <=? _) = true |- _ => apply N.leb_le in H
           | H : (_ =? _) = true |- _ => apply N.eqb_eq in H
           end; lia.
Qed.

Lemma lstrip_head (s : str) :
  match lstrip s with [] => True | c :: _ => isspace c = false end.
Proof.
  induction s as [|c t IH]; simpl; [exact I|].
  destruct (isspace c) eqn:E; [exact IH | exact E].
Qed.

Lemma lstrip_fixed (s : str) :
  match s with [] => True | c :: _ => isspace c = false end ->
  lstrip s = s.
Proof. destruct s as [|c t]; simpl; [reflexivity|]. intros ->. reflexivity. Qed.

Lemma rstrip_head (c : N) (t : str) :
  isspace c = false -> exists r, rstrip (c :: t) = c :: r.
Proof.
  intros E. simpl. destruct (rstrip t) as [|d r].
  - rewrite E. eauto.
  - eauto.
Qed.

Lemma rstrip_idem (s : str) : rstrip (rstrip s) = rstrip s.
Proof.
  induction s as [|c t IH]; simpl; [reflexivity|].
  destruct (rstrip t) as [|d r] eqn:E.
  - destruct (isspace c) eqn:Ec; simpl; [reflexivity|]. rewrite Ec. reflexivity.
  - remember (d :: r) as u. simpl. rewrite IH. subst u. reflexivity.
Qed.

Lemma lstrip_strip (s : str) : lstrip (strip s) = strip s.
Proof.
  unfold strip. pose proof (lstrip_head s) as H.
  destruct (lstrip s) as [|c t]; [reflexivity|].
  destruct (rstrip_head c t H) as [r ->]. simpl. rewrite H. reflexivity.
Qed.

(** [rstrip] removes the trailing whitespace, one code point at a time
    from the right, as [lstrip] does from the left. *)
Lemma rstrip_snoc (s : str) (c : N) :
  rstrip (s ++ [c]) = if isspace c then rstrip s else s ++ [c].
Proof.
  induction s as [|a s IH]; cbn [app rstrip].
  - destruct (isspace c); reflexivity.
  - rewrite IH. destruct (isspace c); [reflexivity|].
    destruct s; reflexivity.
Qed.

(** Trimming twice is trimming once. *)
Lemma strip_idem (s : str) : strip (strip s) = strip s.
Proof.
  unfold strip at 1. rewrite lstrip_strip. unfold strip. apply rstrip_idem.
Qed.

Lemma Forall_lstrip (P : N -> Prop) (s : str) :
  Forall P s -> Forall P (lstrip s).
Proof.
  induction 1 as [|c t Hc Ht IH]; simpl; [constructor|].
  destruct (isspace c); [exact IH | constructor; assumption].
Qed.

Lemma Forall_rstrip (P : N -> Prop) (s : str) :
  Forall P s -> Forall P (rstrip s).
Proof.
  induction 1 as [|c t Hc Ht IH]; simpl; [constructor|].
  destruct (rstrip t) as [|d r].
  - destruct (isspace c); repeat constructor; assumption.
  - constructor; assumption.
Qed.

Lemma Forall_strip (P : N -> Prop) (s : str) :
  Forall P s -> Forall P (strip s).
Proof. intros H. apply Forall_rstrip, Forall_lstrip, H. Qed.

Lemma single_spaced_weaken (b : bool) (s : str) :
  single_spaced b s -> single_spaced false s.
Proof.
  destruct s as [|c t]; simpl; [trivial|].
  destruct (isspace c); [|trivial]. intros (? & ? & ?). auto.
Qed.

Lemma sub_ws_runs_single_spaced (s : str) :
  forall b, single_spaced b (sub_ws_runs b s).
Proof.
  induction s as [|c t IH]; intros b; simpl; [exact I|].
  destruct (isspace c) eqn:E.
  - destruct b; [apply IH|]. change (32 = 32 /\ false = false /\ single_spaced true (sub_ws_runs true t)). auto.
  - simpl. rewrite E. apply IH.
Qed.

Lemma single_spaced_fixed (s : str) :
  forall b, single_spaced b s -> sub_ws_runs b s = s.
Proof.
  induction s as [|c t IH]; intros b; simpl; [reflexivity|].
  destruct (isspace c) eqn:E.
  - intros (-> & -> & H). f_equal. apply IH, H.
  - intros H. f_equal. apply IH, H.
Qed.

Lemma single_spaced_lstrip (s : str) :
  forall b, single_spaced b s -> single_spaced false (lstrip s).
Proof.
  induction s as [|c t IH]; intros b; simpl; [trivial|].
  destruct (isspace c) eqn:E.
  - intros (_ & _ & H). apply (IH true), H.
  - intros H. simpl. rewrite E. exact H.
Qed.

Lemma single_spaced_rstrip (s : str) :
  forall b, single_spaced b s -> single_spaced b (rstrip s).
Proof.
  induction s as [|c t IH]; intros b; simpl; [trivial|].
  destruct (isspace c) eqn:E.
  - intros (Hc & Hb & H). specialize (IH true H).
    destruct (rstrip t) as [|d r]; [exact I|].
    remember (d :: r) as u. simpl. rewrite E. auto.
  - intros H. specialize (IH false H).
    destruct (rstrip t) as [|d r]; simpl; rewrite E; [exact I | exact IH].
Qed.

Lemma re_sub_class_fixed (cls : list N) (repl : N) (s : str) :
  Forall (fun c => existsb (N.eqb c) cls = false) s ->
  re_sub_class cls repl s = s.
Proof.
  unfold re_sub_class. induction 1 as [|c t Hc Ht IH]; simpl; [reflexivity|].
  rewrite Hc, IH. reflexivity.
Qed.

Lemma in_az09sp_le (c : N) : in_az09sp c = true -> c <= 122.
Proof.
  unfold in_az09sp. intros Hc.
  repeat (apply orb_prop in Hc as [Hc|Hc]);
    repeat match goal with
           | H : (_ && _) = true |- _ => apply andb_prop in H as [? ?]
           | H : (_ <=? _) = true |- _ => apply N.leb_le in H
           | H : (_ =? _) = true |- _ => apply N.eqb_eq in H
           end; lia.
Qed.

Lemma in_az09sp_not_accent (a b c : N) (s : str) :
  122 < a -> 122 < b -> 122 < c ->
  Forall (fun x => in_az09sp x = true) s ->
  Forall (fun x => existsb (N.eqb x) [a; b; c] = false) s.
Proof.
  intros Ha Hb Hc H. eapply Forall_impl; [exact H|].
  intros x Hx. apply in_az09sp_le in Hx. simpl.
  destruct (N.eqb_spec x a); [lia|].
  destruct (N.eqb_spec x b); [lia|].
  destruct (N.eqb_spec x c); [lia|]. reflexivity.
Qed.

Lemma filter_in_az09sp (s : str) :
  Forall (fun x => in_az09sp x = true) (re_sub_not_az09sp s).
Proof.
  unfold re_sub_not_az09sp. induction s as [|c t IH]; simpl; [constructor|].
  destruct (in_az09sp c) eqn:E; [constructor; assumption | exact IH].
Qed.

Lemma filter_fixed (s : str) :
  Forall (fun x => in_az09sp x = true) s -> re_sub_not_az09sp s = s.
Proof.
  unfold re_sub_not_az09sp. induction 1 as [|c t Hc Ht IH]; simpl; [reflexivity|].
  rewrite Hc, IH. reflexivity.
Qed.

Lemma sub_ws_runs_in_az09sp (s : str) :
  forall b, Forall (fun x => in_az09sp x = true) s ->
            Forall (fun x => in_az09sp x = true) (sub_ws_runs b s).
Proof.
  induction s as [|c t IH]; intros b H; simpl; [constructor|].
  inversion H as [|? ? Hc Ht]; subst.
  destruct (isspace c).
  - destruct b; [apply IH, Ht | constructor; [reflexivity | apply IH, Ht]].
  - constructor; [exact Hc | apply IH, Ht].
Qed.

(** ** Properties of the normaliser *)

(** The key ignores surrounding whitespace of the raw name. *)
Lemma normalize_name_strip (name : str) :
  normalize_name (strip name) = normalize_name name.
Proof. unfold normalize_name. rewrite strip_idem. reflexivity. Qed.

(** A key consists of lowercase ASCII letters, digits and spaces. *)
Lemma normalize_name_alphabet (name : str) :
  Forall (fun c => in_az09sp c = true) (normalize_name name).
Proof.
  unfold normalize_name, re_sub_ws.
  apply sub_ws_runs_in_az09sp, filter_in_az09sp.
Qed.

(** A key has no run of two spaces. *)
Lemma normalize_name_single_spaced (name : str) :
  single_spaced false (normalize_name name).
Proof. unfold normalize_name, re_sub_ws. apply sub_ws_runs_single_spaced. Qed.

(** Normalising a string that is already over the key alphabet and
    single-spaced only trims it. *)
Lemma normalize_name_of_key (k : str) :
  (forall s, Forall (fun c => in_az09sp c = true) s -> str_lower s = s) ->
  Forall (fun c => in_az09sp c = true) k ->
  single_spaced false k ->
  normalize_name k = strip k.
Proof.
  intros Hlow Hk Hs. unfold normalize_name.
  assert (Hk' : Forall (fun c => in_az09sp c = true) (strip k))
    by (apply Forall_strip, Hk).
  rewrite (Hlow _ Hk').
  rewrite (re_sub_class_fixed [225; 224; 228] 97 (strip k)),
          (re_sub_class_fixed [233; 232; 235] 101 (strip k)),
          (re_sub_class_fixed [237; 236; 239] 105 (strip k)),
          (re_sub_class_fixed [243; 242; 246] 111 (strip k)),
          (re_sub_class_fixed [250; 249; 252] 117 (strip k))
    by (apply in_az09sp_not_accent; [lia | lia | lia | exact Hk']).
  rewrite (filter_fixed _ Hk'). unfold re_sub_ws.
  apply single_spaced_fixed. unfold strip.
  apply single_spaced_rstrip. eapply single_spaced_lstrip, Hs.
Qed.

(** Normalising a key trims it, and from the second application on the
    normaliser is stable. *)
Lemma normalize_name_twice (name : str) :
  (forall s, Forall (fun c => in_az09sp c = true) s -> str_lower s = s) ->
  normalize_name (normalize_name name) = strip (normalize_name name) /\
  normalize_name (normalize_name (normalize_name name))
  = normalize_name (normalize_name name).
Proof.
  intros Hlow.
  assert (E : normalize_name (normalize_name name) = strip (normalize_name name)).
  { apply normalize_name_of_key;
      [exact Hlow | apply normalize_name_alphabet
       | apply normalize_name_single_spaced]. }
  split; [exact E|].
  rewrite E. rewrite normalize_name_strip. exact E.
Qed.

(** ** Properties of dictionaries *)

Lemma dict_get_set_eq (k : str) (v : json) (d : list (str * json)) :
  dict_get k (dict_set k v d) = Some v.
Proof.
  induction d as [|[k' v'] t IH]; simpl.
  - rewrite decide_True; reflexivity.
  - destruct (decide (k' = k)) as [E|NE]; simpl.
    + rewrite decide_True; reflexivity.
    + rewrite decide_False by assumption. exact IH.
Qed.

Lemma dict_get_set_ne (k k' : str) (v : json) (d : list (str * json)) :
  k <> k' -> dict_get k' (dict_set k v d) = dict_get k' d.
Proof.
  intros Hne. induction d as [|[k0 v0] t IH]; simpl.
  - rewrite decide_False by assumption. reflexivity.
  - destruct (decide (k0 = k)) as [E|NE]; simpl.
    + subst k0. rewrite !decide_False by assumption. reflexivity.
    + destruct (decide (k0 = k')); [reflexivity | exact IH].
Qed.

Lemma dict_set_keys (k : str) (v : json) (d : list (str * json)) :
  is_Some (dict_get k d) -> List.map fst (dict_set k v d) = List.map fst d.
Proof.
  induction d as [|[k' v'] t IH]; simpl.
  - intros [x Hx]. discriminate.
  - destruct (decide (k' = k)) as [E|NE]; simpl.
    + intros _. subst k'. reflexivity.
    + intros H. f_equal. apply IH, H.
Qed.


(** ** Stepping through the operations *)

Ltac world_cases w :=
  let cd := fresh "cd" in let ix := fresh "ix" in let ql := fresh "ql" in
  let sin := fresh "sin" in let out := fresh "out" in
  let us := fresh "us" in let un := fresh "un" in
  let ck := fresh "ck" in let cn := fresh "cn" in
  destruct w as [cd ix ql sin out us un ck cn]; simpl in *; subst.

Ltac enter_with_name name :=
  unfold require_non_empty, find_client_file, bind, py_input; cbn;
  let c := fresh "c" in let t := fresh "t" in let E := fresh "E" in
  destruct (strip name) as [|c t] eqn:E; [congruence|]; cbn;
  rewrite <- E, ?normalize_name_strip.

(** Resolution is a pure reading of the index and of the record store. *)
Lemma find_client_file_hit (index : gmap str str) (name f : str) (w : world) :
  index !! normalize_name name = Some f -> f <> [] ->
  is_Some (clients_dir w !! f) ->
  find_client_file index name w = Ret (Some f) w.
Proof.
  intros Hidx Hf Hfile. unfold find_client_file, bind, path_exists.
  rewrite Hidx. destruct f as [|c t]; [congruence|]. cbn.
  rewrite bool_decide_eq_true_2 by assumption. reflexivity.
Qed.

Lemma find_client_file_miss (index : gmap str str) (name : str) (w : world) :
  index !! normalize_name name = None \/
  (exists f, index !! normalize_name name = Some f /\ clients_dir w !! f = None) ->
  find_client_file index name w = Ret None w.
Proof.
  intros [Hidx | (f & Hidx & Hfile)]; unfold find_client_file, bind, path_exists;
    rewrite Hidx; [reflexivity|].
  destruct f as [|c t]; [reflexivity|]. cbn.
  rewrite bool_decide_eq_false_2; [reflexivity|].
  rewrite Hfile. intros [x Hx]. discriminate.
Qed.

Lemma delete_client_cancel (index : gmap str str) (w : world)
  (name answer : str) (rest : list str) (f : str) :
  stdin w = name :: answer :: rest ->
  strip name <> [] ->
  index !! normalize_name name = Some f -> f <> [] ->
  is_Some (clients_dir w !! f) ->
  str_lower (strip answer) <> lit "si" ->
  exists w', delete_client index w = Ret (Cancelled, index) w' /\
    same_store w w' /\ stdin w' = rest /\
    stdout w' = stdout w ++ [Prompt Ask_nombre;
                             Prompt (Ask_borrar (strip name)); Cancelado].
Proof.
  intros Hin Hname Hidx Hf Hfile Hans.
  world_cases w. unfold delete_client. enter_with_name name.
  rewrite Hidx. destruct f as [|c0 f']; [congruence|]. cbn.
  rewrite bool_decide_eq_true_2 by assumption. cbn.
  rewrite bool_decide_eq_false_2 by assumption. cbn.
  eexists. split; [reflexivity|]. cbn. repeat split.
  rewrite <- !app_assoc. reflexivity.
Qed.

Lemma delete_client_confirm (index : gmap str str) (w : world)
  (name answer : str) (rest : list str) (f : str) :
  stdin w = name :: answer :: rest ->
  strip name <> [] ->
  index !! normalize_name name = Some f -> f <> [] ->
  is_Some (clients_dir w !! f) ->
  str_lower (strip answer) = lit "si" ->
  exists w', delete_client index w
             = Ret (Done, delete (normalize_name name) index) w' /\
    clients_dir w' = delete f (clients_dir w) /\
    index_file w' = Some (Index_text (delete (normalize_name name) index)) /\
    queries_log w' = queries_log w /\ stdin w' = rest /\
    stdout w' = stdout w ++ [Prompt Ask_nombre;
                             Prompt (Ask_borrar (strip name)); Cliente_eliminado].
Proof.
  intros Hin Hname Hidx Hf Hfile Hans.
  world_cases w. unfold delete_client. enter_with_name name.
  rewrite Hidx. destruct f as [|c0 f']; [congruence|]. cbn.
  rewrite bool_decide_eq_true_2 by assumption. cbn.
  rewrite bool_decide_eq_true_2 by assumption. cbn.
  unfold os_remove. cbn. destruct Hfile as [x Hx]. rewrite Hx. cbn.
  eexists. split; [reflexivity|]. cbn. repeat split.
  rewrite <- !app_assoc. reflexivity.
Qed.

Lemma delete_client_unresolved (index : gmap str str) (w : world)
  (name : str) (rest : list str) :
  stdin w = name :: rest ->
  strip name <> [] ->
  index !! normalize_name name = None \/
  (exists f, index !! normalize_name name = Some f /\ clients_dir w !! f = None) ->
  exists w', delete_client index w = Ret (Not_found, index) w' /\
    same_store w w' /\ stdin w' = rest /\
    stdout w' = stdout w ++ [Prompt Ask_nombre; Cliente_no_encontrado].
Proof.
  intros Hin Hname Hres.
  world_cases w. unfold delete_client. enter_with_name name.
  assert (Hb : forall f : str, cd !! f = None ->
               bool_decide (is_Some (cd !! f)) = false).
  { intros f Hf. apply bool_decide_eq_false_2. rewrite Hf.
    intros [x Hx]. discriminate. }
  destruct Hres as [Hidx | (f & Hidx & Hfile)]; rewrite Hidx; cbn.
  - eexists. split; [reflexivity|]. cbn. repeat split.
    rewrite <- !app_assoc. reflexivity.
  - destruct f as [|c0 f']; cbn; [|rewrite (Hb _ Hfile); cbn];
      (eexists; split; [reflexivity|]; cbn; repeat split;
       rewrite <- !app_assoc; reflexivity).
Qed.


Ltac split_match :=
  match goal with
  | |- context [match ?x with _ => _ end] =>
      lazymatch x with
      | context [match _ with _ => _ end] => fail
      | _ => destruct x eqn:?
      end
  end.


Ltac unfold_ops :=
  unfold require_non_empty, find_client_file, bind, py_input,
    path_exists, json_load, json_dump, os_remove, log_append, save_index,
    py_print, ret, setitem, getitem, getattr_append, uuid4, now_iso, raise.

(** What one call of [modify_client] can do to the persisted state,
    whatever it reads and however it ends. *)
Lemma modify_client_store (index : gmap str str) (w : world) :
  let w' := final_world (modify_client index w) in
  index_file w' = index_file w /\
  queries_log w' = queries_log w /\
  (clients_dir w' = clients_dir w \/
   exists f d d',
     clients_dir w !! f = Some (Json_text (JObj d)) /\
     clients_dir w' = <[f := Json_text (JObj d')]> (clients_dir w) /\
     dict_step d d').
Proof.
  world_cases w. unfold modify_client. unfold_ops. cbn.
  repeat (split_match; cbn in *; simplify_eq);
    (split; [reflexivity|]; split; [reflexivity|]);
    try (left; reflexivity);
    right; do 3 eexists; (split; [eassumption|]); (split; [reflexivity|]);
    unfold dict_step; eauto.
Qed.





(** A successful creation, step by step. *)
Lemma create_client_done (index : gmap str str) (w : world)
  (name tipo contacto servicio descripcion : str) (rest : list str) :
  stdin w = name :: tipo :: contacto :: servicio :: descripcion :: rest ->
  strip name <> [] ->
  index !! normalize_name name = None ->
  strip servicio <> [] ->
  strip descripcion <> [] ->
  let customer_id := uuid4_source w (uuid4_calls w) in
  let filename := customer_id ++ lit "_" ++ slugify name ++ lit ".json" in
  let seed := solicitud (uuid4_source w (S (uuid4_calls w)))
                (strip servicio) (strip descripcion)
                (clock w (S (clock_reads w))) in
  let cliente :=
    JObj [ (lit "customer_id", JStr customer_id);
           (lit "nombre", JStr (strip name));
           (lit "tipo_cliente", JStr (or_default (strip tipo) (lit "Persona")));
           (lit "contacto", JStr (or_default (strip contacto) (lit "N/A")));
           (lit "fecha_alta", JStr (clock w (clock_reads w)));
           (lit "solicitudes", JArr [seed]) ] in
  let index' := <[normalize_name name := filename]> index in
  exists w',
    create_client index w = Ret (Done, index') w' /\
    clients_dir w' = <[filename := Json_text cliente]> (clients_dir w) /\
    index_file w' = Some (Index_text index') /\
    queries_log w' = queries_log w /\
    stdin w' = rest.
Proof.
  intros Hin Hname Hidx Hserv Hdesc. cbn zeta.
  world_cases w. unfold create_client, slugify. enter_with_name name.
  rewrite bool_decide_eq_false_2
    by (rewrite Hidx; intros [x Hx]; discriminate).
  cbn.
  destruct (strip servicio) as [|c1 t1] eqn:E1; [congruence|]. cbn.
  destruct (strip descripcion) as [|c2 t2] eqn:E2; [congruence|]. cbn.
  unfold_ops. cbn. rewrite <- E1, <- E2.
  eexists. split; [reflexivity|]. cbn. repeat split.
Qed.

(** A creation under a key that is taken stops before any write. *)
Lemma create_client_taken (index : gmap str str) (w : world)
  (name : str) (rest : list str) :
  stdin w = name :: rest ->
  strip name <> [] ->
  is_Some (index !! normalize_name name) ->
  exists w',
    create_client index w = Ret (Conflict, index) w' /\
    same_store w w' /\
    uuid4_calls w' = uuid4_calls w /\
    stdin w' = rest /\
    stdout w' = stdout w ++ [Prompt Ask_nombre; Ya_existe_ese_cliente].
Proof.
  intros Hin Hname Hidx.
  world_cases w. unfold create_client. enter_with_name name.
  rewrite bool_decide_eq_true_2 by assumption. unfold_ops. cbn.
  eexists. split; [reflexivity|]. cbn. repeat split.
  rewrite <- !app_assoc. reflexivity.
Qed.

Lemma consult_client_unresolved (index : gmap str str) (w : world)
  (name : str) (rest : list str) :
  stdin w = name :: rest ->
  strip name <> [] ->
  index !! normalize_name name = None \/
  (exists f, index !! normalize_name name = Some f /\ clients_dir w !! f = None) ->
  exists w', consult_client index w = Ret Not_found w' /\
    same_store w w' /\ stdin w' = rest /\
    stdout w' = stdout w ++ [Prompt Ask_nombre; Cliente_no_encontrado].
Proof.
  intros Hin Hname Hres.
  world_cases w. unfold consult_client. enter_with_name name.
  assert (Hb : forall f : str, cd !! f = None ->
               bool_decide (is_Some (cd !! f)) = false).
  { intros f Hf. apply bool_decide_eq_false_2. rewrite Hf.
    intros [x Hx]. discriminate. }
  destruct Hres as [Hidx | (f & Hidx & Hfile)]; rewrite Hidx; cbn.
  - eexists. split; [reflexivity|]. cbn. repeat split.
    rewrite <- !app_assoc. reflexivity.
  - destruct f as [|c0 f']; cbn; [|rewrite (Hb _ Hfile); cbn];
      (eexists; split; [reflexivity|]; cbn; repeat split;
       rewrite <- !app_assoc; reflexivity).
Qed.

Lemma modify_client_unresolved (index : gmap str str) (w : world)
  (name : str) (rest : list str) :
  stdin w = name :: rest ->
  strip name <> [] ->
  index !! normalize_name name = None \/
  (exists f, index !! normalize_name name = Some f /\ clients_dir w !! f = None) ->
  exists w', modify_client index w = Ret Not_found w' /\
    same_store w w' /\ stdin w' = rest /\
    stdout w' = stdout w ++ [Prompt Ask_nombre; Cliente_no_encontrado].
Proof.
  intros Hin Hname Hres.
  world_cases w. unfold modify_client. enter_with_name name.
  assert (Hb : forall f : str, cd !! f = None ->
               bool_decide (is_Some (cd !! f)) = false).
  { intros f Hf. apply bool_decide_eq_false_2. rewrite Hf.
    intros [x Hx]. discriminate. }
  destruct Hres as [Hidx | (f & Hidx & Hfile)]; rewrite Hidx; cbn.
  - eexists. split; [reflexivity|]. cbn. repeat split.
    rewrite <- !app_assoc. reflexivity.
  - destruct f as [|c0 f']; cbn; [|rewrite (Hb _ Hfile); cbn];
      (eexists; split; [reflexivity|]; cbn; repeat split;
       rewrite <- !app_assoc; reflexivity).
Qed.

(** One "add a service request" modification, step by step. *)
Lemma modify_client_append (index : gmap str str) (w : world)
  (name opt servicio descripcion : str) (rest : list str)
  (f : str) (d : list (str * json)) (l : list json) :
  stdin w = name :: opt :: servicio :: descripcion :: rest ->
  strip name <> [] ->
  strip opt = lit "2" ->
  strip servicio <> [] ->
  strip descripcion <> [] ->
  index !! normalize_name name = Some f -> f <> [] ->
  clients_dir w !! f = Some (Json_text (JObj d)) ->
  dict_get (lit "solicitudes") d = Some (JArr l) ->
  let x := solicitud (uuid4_source w (uuid4_calls w)) (strip servicio)
             (strip descripcion) (clock w (clock_reads w)) in
  exists w',
    modify_client index w = Ret Done w' /\
    clients_dir w'
    = <[f := Json_text (JObj (dict_set (lit "solicitudes") (JArr (l ++ [x])) d))]>
        (clients_dir w) /\
    index_file w' = index_file w /\
    queries_log w' = queries_log w /\
    stdin w' = rest /\
    uuid4_source w' = uuid4_source w /\ uuid4_calls w' = S (uuid4_calls w) /\
    clock w' = clock w /\ clock_reads w' = S (clock_reads w).
Proof.
  intros Hin Hname Hopt Hserv Hdesc Hidx Hf Hfile Hl. cbn zeta.
  world_cases w. unfold modify_client. enter_with_name name.
  rewrite Hidx. destruct f as [|c0 f']; [congruence|]. cbn.
  rewrite bool_decide_eq_true_2 by (rewrite Hfile; eauto).
  unfold_ops. cbn. rewrite Hfile. cbn. rewrite Hopt.
  rewrite bool_decide_eq_false_2 by discriminate.
  rewrite bool_decide_eq_true_2 by reflexivity. cbn.
  destruct (strip servicio) as [|c1 t1] eqn:E1; [congruence|]. cbn.
  destruct (strip descripcion) as [|c2 t2] eqn:E2; [congruence|]. cbn.
  rewrite Hl. cbn.
  eexists. split; [reflexivity|]. cbn. repeat split.
Qed.

(** One "contact" modification, step by step. *)
Lemma modify_client_contact (index : gmap str str) (w : world)
  (name opt nuevo : str) (rest : list str)
  (f : str) (d : list (str * json)) :
  stdin w = name :: opt :: nuevo :: rest ->
  strip name <> [] ->
  strip opt = lit "1" ->
  strip nuevo <> [] ->
  index !! normalize_name name = Some f -> f <> [] ->
  clients_dir w !! f = Some (Json_text (JObj d)) ->
  exists w',
    modify_client index w = Ret Done w' /\
    clients_dir w'
    = <[f := Json_text (JObj (dict_set (lit "contacto") (JStr (strip nuevo)) d))]>
        (clients_dir w) /\
    index_file w' = index_file w /\
    queries_log w' = queries_log w /\
    stdin w' = rest.
Proof.
  intros Hin Hname Hopt Hnuevo Hidx Hf Hfile.
  world_cases w. unfold modify_client. enter_with_name name.
  rewrite Hidx. destruct f as [|c0 f']; [congruence|]. cbn.
  rewrite bool_decide_eq_true_2 by (rewrite Hfile; eauto).
  unfold_ops. cbn. rewrite Hfile. cbn. rewrite Hopt.
  rewrite bool_decide_eq_true_2 by reflexivity. cbn.
  destruct (strip nuevo) as [|c1 t1] eqn:E1; [congruence|]. cbn.
  eexists. split; [reflexivity|]. cbn. repeat split.
Qed.

(** ** The invariant of the menu loop *)


















(** ** The properties of the specification *)

(** C1 (amended).  For every index and every pair of raw names with the
    same normalised key, if the key of the first name is in the index
    and the second name is not blank (it is not empty once trimmed),
    then creating a customer with the second name stops with Conflict
    before any write: the in-memory index is returned as it was, the
    index file, the record files and the query log are unchanged, and no
    identifier is generated. *)
Theorem create_client_conflict (index : gmap str str) (w : world)
  (n1 n2 : str) (rest : list str) :
  normalize_name n1 = normalize_name n2 ->
  is_Some (index !! normalize_name n1) ->
  stdin w = n2 :: rest ->
  strip n2 <> [] ->
  exists w',
    create_client index w = Ret (Conflict, index) w' /\
    clients_dir w' = clients_dir w /\
    index_file w' = index_file w /\
    queries_log w' = queries_log w /\
    uuid4_calls w' = uuid4_calls w /\
    stdout w' = stdout w ++ [Prompt Ask_nombre; Ya_existe_ese_cliente].
Proof.
  intros Hkey Hidx Hin Hname. rewrite Hkey in Hidx.
  destruct (create_client_taken index w n2 rest Hin Hname Hidx)
    as (w' & Hrun & (Hc & Hi & Hq) & Hu & _ & Hout).
  exists w'. repeat split; assumption.
Qed.


(** C4.  Starting from a record whose [solicitudes] list is [l], [N]
    successive modifications that each add a service request to that
    customer all succeed and leave the list equal to [l] followed by the
    [N] new requests in the order they were entered; the other fields
    of the record are unchanged. *)
Theorem modify_many_appends (items : list (str * str * str * str)) :
  forall (index : gmap str str) (w : world) (rest : list str) (f : str)
         (d : list (str * json)) (l : list json),
    stdin w = concat (List.map append_lines items) ++ rest ->
    Forall (valid_append index f) items ->
    f <> [] ->
    clients_dir w !! f = Some (Json_text (JObj d)) ->
    dict_get (lit "solicitudes") d = Some (JArr l) ->
    exists w' d',
      modify_many (length items) index w
      = Ret (repeat Done (length items)) w' /\
      clients_dir w' !! f = Some (Json_text (JObj d')) /\
      dict_get (lit "solicitudes") d'
      = Some (JArr (l ++ new_requests (uuid4_source w) (clock w)
                          (uuid4_calls w) (clock_reads w) items)) /\
      (forall k, k <> lit "solicitudes" -> dict_get k d' = dict_get k d) /\
      stdin w' = rest.
Proof.
  induction items as [|[[[name opt] servicio] descripcion] items IH];
    intros index w rest f d l Hin Hall Hf Hfile Hl.
  - exists w, d. cbn. rewrite app_nil_r. auto.
  - inversion Hall as [|? ? Hit Hrest]; subst.
    destruct Hit as (Hname & Hidx & Hopt & Hserv & Hdesc).
    cbn in Hin.
    destruct (modify_client_append index w name opt servicio descripcion
                (concat (List.map append_lines items) ++ rest) f d l
                Hin Hname Hopt Hserv Hdesc Hidx Hf Hfile Hl)
      as (w1 & Hrun & Hc & _ & _ & Hin1 & Hus & Hun & Hck & Hcn).
    cbn zeta in Hc.
    set (x := solicitud (uuid4_source w (uuid4_calls w)) (strip servicio)
                (strip descripcion) (clock w (clock_reads w))) in *.
    set (d1 := dict_set (lit "solicitudes") (JArr (l ++ [x])) d) in *.
    assert (Hfile1 : clients_dir w1 !! f = Some (Json_text (JObj d1)))
      by (rewrite Hc; apply lookup_insert_eq).
    assert (Hl1 : dict_get (lit "solicitudes") d1 = Some (JArr (l ++ [x])))
      by apply dict_get_set_eq.
    destruct (IH index w1 rest f d1 (l ++ [x]) Hin1 Hrest Hf Hfile1 Hl1)
      as (w' & d' & Hrun' & Hfile' & Hl' & Hframe & Hin').
    exists w', d'.
    split; [|split; [exact Hfile'|split; [|split; [|exact Hin']]]].
    + cbn [modify_many length repeat]. unfold bind at 1. rewrite Hrun.
      unfold bind at 1. rewrite Hrun'. reflexivity.
    + rewrite Hl', Hus, Hun, Hck, Hcn. cbn [new_requests].
      rewrite <- app_assoc. reflexivity.
    + intros k Hk. rewrite (Hframe k Hk). unfold d1.
      apply dict_get_set_ne. congruence.
Qed.

(** C5 (amended).  When the key of a raw name is not in the index, or is
    in the index but the file it maps to does not exist, resolution
    returns nothing without raising; and when the name is moreover not
    blank, consult, modify and delete each print "Cliente no
    encontrado.", return, and leave the record files, the index file,
    the query log and the in-memory index unchanged. *)
Theorem unresolved_name_not_found (index : gmap str str) (w : world)
  (name : str) (rest : list str) :
  stdin w = name :: rest ->
  index !! normalize_name name = None \/
  (exists f, index !! normalize_name name = Some f /\ clients_dir w !! f = None) ->
  find_client_file index name w = Ret None w /\
  (strip name <> [] ->
   (exists w', consult_client index w = Ret Not_found w' /\ same_store w w' /\
      stdout w' = stdout w ++ [Prompt Ask_nombre; Cliente_no_encontrado]) /\
   (exists w', modify_client index w = Ret Not_found w' /\ same_store w w' /\
      stdout w' = stdout w ++ [Prompt Ask_nombre; Cliente_no_encontrado]) /\
   (exists w', delete_client index w = Ret (Not_found, index) w' /\
      same_store w w' /\
      stdout w' = stdout w ++ [Prompt Ask_nombre; Cliente_no_encontrado])).
Proof.
  intros Hin Hres. split; [apply find_client_file_miss, Hres|].
  intros Hname. repeat split.
  - destruct (consult_client_unresolved index w name rest Hin Hname Hres)
      as (w' & ? & ? & _ & ?). eauto.
  - destruct (modify_client_unresolved index w name rest Hin Hname Hres)
      as (w' & ? & ? & _ & ?). eauto.
  - destruct (delete_client_unresolved index w name rest Hin Hname Hres)
      as (w' & ? & ? & _ & ?). eauto.
Qed.

(** C6.  A delete of an existing customer whose confirmation answer is
    not affirmative returns Cancelled and changes nothing: the record
    file is still there with the same content, the index still maps the
    key to the same file name, and the index file is not rewritten. *)
Theorem delete_client_cancelled_no_mutation (index : gmap str str)
  (w : world) (name answer : str) (rest : list str) (f : str)
  (t : file_text) :
  stdin w = name :: answer :: rest ->
  strip name <> [] ->
  index !! normalize_name name = Some f -> f <> [] ->
  clients_dir w !! f = Some t ->
  str_lower (strip answer) <> lit "si" ->
  exists index' w',
    delete_client index w = Ret (Cancelled, index') w' /\
    index' = index /\
    index' !! normalize_name name = Some f /\
    clients_dir w' !! f = Some t /\
    clients_dir w' = clients_dir w /\
    index_file w' = index_file w /\
    queries_log w' = queries_log w.
Proof.
  intros Hin Hname Hidx Hf Hfile Hans.
  destruct (delete_client_cancel index w name answer rest f
              Hin Hname Hidx Hf (mk_is_Some _ _ Hfile) Hans)
    as (w' & Hrun & (Hc & Hi & Hq) & _).
  exists index, w'. rewrite Hc. auto 10.
Qed.



(** C9.  Once a delete has resolved the customer, it removes the record
    if and only if the answer, trimmed and lowercased, is exactly "si";
    with any other answer it prints "Cancelado." and changes nothing. *)
Theorem delete_client_iff_si (index : gmap str str) (w : world)
  (name answer : str) (rest : list str) (f : str) :
  stdin w = name :: answer :: rest ->
  strip name <> [] ->
  index !! normalize_name name = Some f -> f <> [] ->
  is_Some (clients_dir w !! f) ->
  ((exists index' w',
      delete_client index w = Ret (Done, index') w' /\
      clients_dir w' !! f = None)
   <-> str_lower (strip answer) = lit "si") /\
  (str_lower (strip answer) <> lit "si" ->
   exists w',
     delete_client index w = Ret (Cancelled, index) w' /\
     same_store w w' /\
     stdout w' = stdout w ++ [Prompt Ask_nombre;
                              Prompt (Ask_borrar (strip name)); Cancelado]).
Proof.
  intros Hin Hname Hidx Hf Hfile. split; [split|].
  - intros (index' & w' & Hrun & _).
    destruct (decide (str_lower (strip answer) = lit "si")) as [E|NE];
      [exact E|].
    destruct (delete_client_cancel index w name answer rest f
                Hin Hname Hidx Hf Hfile NE) as (w2 & Hrun2 & _).
    rewrite Hrun2 in Hrun. discriminate.
  - intros Hans.
    destruct (delete_client_confirm index w name answer rest f
                Hin Hname Hidx Hf Hfile Hans) as (w' & Hrun & Hc & _).
    exists (delete (normalize_name name) index), w'.
    split; [exact Hrun|]. rewrite Hc. apply lookup_delete_eq.
  - intros NE.
    destruct (delete_client_cancel index w name answer rest f
                Hin Hname Hidx Hf Hfile NE) as (w' & ? & ? & _ & ?).
    eauto.
Qed.

(** C10.  A successful contact modification rewrites the record under
    the same file name with the contact replaced and nothing else
    changed: every other key of the dict (customer_id, nombre,
    tipo_cliente, fecha_alta, solicitudes, ...) keeps its value, the
    keys keep their order, and the other files and the index file are
    untouched. *)
Theorem modify_client_contact_frame (index : gmap str str) (w : world)
  (name opt nuevo : str) (rest : list str)
  (f : str) (d : list (str * json)) :
  stdin w = name :: opt :: nuevo :: rest ->
  strip name <> [] ->
  strip opt = lit "1" ->
  strip nuevo <> [] ->
  index !! normalize_name name = Some f -> f <> [] ->
  clients_dir w !! f = Some (Json_text (JObj d)) ->
  exists w' d',
    modify_client index w = Ret Done w' /\
    clients_dir w' !! f = Some (Json_text (JObj d')) /\
    dict_get (lit "contacto") d' = Some (JStr (strip nuevo)) /\
    (forall k, k <> lit "contacto" -> dict_get k d' = dict_get k d) /\
    (is_Some (dict_get (lit "contacto") d) ->
     List.map fst d' = List.map fst d) /\
    (forall g, g <> f -> clients_dir w' !! g = clients_dir w !! g) /\
    index_file w' = index_file w.
Proof.
  intros Hin Hname Hopt Hnuevo Hidx Hf Hfile.
  destruct (modify_client_contact index w name opt nuevo rest f d
              Hin Hname Hopt Hnuevo Hidx Hf Hfile)
    as (w' & Hrun & Hc & Hi & _).
  exists w', (dict_set (lit "contacto") (JStr (strip nuevo)) d).
  split; [exact Hrun|]. rewrite Hc.
  split; [apply lookup_insert_eq|].
  split; [apply dict_get_set_eq|].
  split; [intros k Hk; apply dict_get_set_ne; congruence|].
  split; [apply dict_set_keys|].
  split; [intros g Hg; apply lookup_insert_ne; congruence | exact Hi].
Qed.

(** ** Further properties of the normaliser *)

Lemma single_spaced_no_double (u v : str) :
  forall b, single_spaced b (u ++ 32 :: 32 :: v) -> False.
Proof.
  induction u as [|c u IH]; intros b; cbn [app single_spaced].
  - intros H. cbn in H. destruct H as (_ & _ & _ & H & _). discriminate.
  - destruct (isspace c); [intros (_ & _ & H) | intros H]; eapply IH, H.
Qed.

(** X1.  Whatever the raw name and the lowercase table, a key consists
    of lowercase ASCII letters, digits and spaces only, and has no two
    adjacent spaces. *)
Theorem normalize_name_key_shape (name : str) :
  Forall (fun c => in_az09sp c = true) (normalize_name name) /\
  (forall u v, normalize_name name <> u ++ [32; 32] ++ v).
Proof.
  split; [apply normalize_name_alphabet|].
  intros u v E. pose proof (normalize_name_single_spaced name) as H.
  rewrite E in H. exact (single_spaced_no_double u v false H).
Qed.

(** X2.  When the lowercase table leaves strings over the key alphabet
    alone, normalising a key only trims it; so the normaliser is
    idempotent on a name exactly when the key of the name has no leading
    or trailing space, and applying it twice is always enough. *)
Theorem normalize_name_second_pass (name : str) :
  (forall s, Forall (fun c => in_az09sp c = true) s -> str_lower s = s) ->
  normalize_name (normalize_name name) = strip (normalize_name name) /\
  (normalize_name (normalize_name name) = normalize_name name
   <-> strip (normalize_name name) = normalize_name name) /\
  normalize_name (normalize_name (normalize_name name))
  = normalize_name (normalize_name name).
Proof.
  intros Hlow. destruct (normalize_name_twice name Hlow) as [E1 E2].
  split; [exact E1|]. split; [|exact E2].
  rewrite E1. reflexivity.
Qed.

Lemma replace_space_hyphen_inj (s t : str) :
  Forall (fun c => in_az09sp c = true) s ->
  Forall (fun c => in_az09sp c = true) t ->
  replace_space_hyphen s = replace_space_hyphen t -> s = t.
Proof.
  unfold replace_space_hyphen. intros Hs. revert t.
  induction Hs as [|c s Hc Hs IH]; intros t Ht E.
  - destruct t; [reflexivity | discriminate].
  - destruct Ht as [|c' t Hc' Ht]; [discriminate|].
    cbn in E. injection E as Ec Et. f_equal; [|apply IH; assumption].
    assert (H45 : forall x, in_az09sp x = true -> x <> 45).
    { intros x Hx ->. vm_compute in Hx. discriminate. }
    destruct (N.eqb_spec c 32) as [E1|N1], (N.eqb_spec c' 32) as [E2|N2].
    + congruence.
    + exfalso. symmetry in Ec. exact (H45 _ Hc' Ec).
    + exfalso. exact (H45 _ Hc Ec).
    + exact Ec.
Qed.

(** X3.  A slug consists of lowercase ASCII letters, digits and hyphens
    only (no space, no path separator, no dot), and two names have the
    same slug exactly when they have the same key. *)
Theorem slugify_shape (name name' : str) :
  Forall (fun c => in_az09hy c = true) (slugify name) /\
  (slugify name = slugify name' <-> normalize_name name = normalize_name name').
Proof.
  split.
  - unfold slugify, replace_space_hyphen.
    pose proof (normalize_name_alphabet name) as H.
    induction H as [|c s Hc Hs IH]; cbn; constructor; [|exact IH].
    destruct (N.eqb_spec c 32); [reflexivity|].
    unfold in_az09sp in Hc. unfold in_az09hy.
    apply orb_prop in Hc as [Hc|Hc]; [rewrite Hc; reflexivity|].
    apply N.eqb_eq in Hc. contradiction.
  - unfold slugify. split; [|intros ->; reflexivity].
    apply replace_space_hyphen_inj; apply normalize_name_alphabet.
Qed.

(** ** Further properties of the client service *)

Lemma print_entries_run (l : list (str * str)) :
  forall w,
    foldr (fun kf rest => bind (py_print (Entrada kf.1 kf.2)) (fun _ => rest))
          (ret tt) l w
    = Ret tt (with_stdout
                (stdout w ++ List.map (fun kf => Entrada kf.1 kf.2) l) w).
Proof.
  induction l as [|kf l IH]; intros w; cbn [foldr List.map].
  - rewrite app_nil_r. destruct w; reflexivity.
  - unfold bind at 1. cbn. rewrite IH. cbn. rewrite <- app_assoc. reflexivity.
Qed.

Lemma list_clients_out (index : gmap str str) (w : world) :
  exists lines, list_clients index w = Ret tt (with_stdout (stdout w ++ lines) w).
Proof.
  unfold list_clients. case_bool_decide; [eexists; reflexivity|].
  eexists (_ :: _). unfold bind. cbn. rewrite print_entries_run. cbn.
  rewrite <- app_assoc. reflexivity.
Qed.

(** X4.  [list_clients] never raises and changes nothing but the
    standard output: for an empty index it prints "No hay clientes
    registrados."; otherwise it prints the heading followed by one line
    per entry of the index, each entry once. *)
Theorem list_clients_prints_index (index : gmap str str) (w : world) :
  exists lines,
    list_clients index w = Ret tt (with_stdout (stdout w ++ lines) w) /\
    (index = ∅ -> lines = [No_hay_clientes]) /\
    (index <> ∅ ->
     exists entries,
       lines = Lista_de_clientes :: entries /\
       length entries = size index /\
       NoDup entries /\
       forall k f, Entrada k f ∈ entries <-> index !! k = Some f).
Proof.
  unfold list_clients. case_bool_decide as Hidx.
  - exists [No_hay_clientes]. split; [reflexivity|]. split; [reflexivity|].
    intros H. contradiction.
  - exists (Lista_de_clientes
            :: List.map (fun kf => Entrada kf.1 kf.2) (map_to_list index)).
    split.
    { unfold bind. cbn. rewrite print_entries_run. cbn.
      rewrite <- app_assoc. reflexivity. }
    split; [intros H; contradiction|]. intros _.
    eexists. split; [reflexivity|].
    split; [rewrite length_map; apply length_map_to_list|].
    split.
    + apply NoDup_fmap_2; [|apply NoDup_map_to_list].
      intros [k1 f1] [k2 f2] E. cbn in E. congruence.
    + intros k f. rewrite <- elem_of_map_to_list. split.
      * intros H. apply list_elem_of_fmap in H as ([k' f'] & E & Hin).
        cbn in E. congruence.
      * intros H. apply list_elem_of_fmap. exists (k, f). auto.
Qed.

Lemma consult_client_found (index : gmap str str) (w : world)
  (name : str) (rest : list str) (f : str) (v : json) :
  stdin w = name :: rest ->
  strip name <> [] ->
  index !! normalize_name name = Some f -> f <> [] ->
  clients_dir w !! f = Some (Json_text v) ->
  exists w',
    consult_client index w = Ret Done w' /\
    clients_dir w' = clients_dir w /\
    index_file w' = index_file w /\
    queries_log w'
    = queries_log w ++ [consulta_line (clock w (clock_reads w)) (strip name)] /\
    stdin w' = rest /\
    stdout w' = stdout w ++ [Prompt Ask_nombre; Json_dumps v;
                             Consulta_registrada].
Proof.
  intros Hin Hname Hidx Hf Hfile.
  world_cases w. unfold consult_client. enter_with_name name.
  rewrite Hidx. destruct f as [|c0 f']; [congruence|]. cbn.
  rewrite bool_decide_eq_true_2 by (rewrite Hfile; eauto).
  unfold_ops. cbn. rewrite Hfile. cbn.
  eexists. split; [reflexivity|]. cbn. repeat split.
  rewrite <- !app_assoc. reflexivity.
Qed.

(** X5.  Whatever it reads and however it ends, [consult_client] never
    changes a record file or the index file, and it writes to the query
    log only when it succeeds: then exactly one line, made of the time,
    " | CONSULTA | " and the name as entered (trimmed). *)
Theorem consult_client_read_only (index : gmap str str) (w : world) :
  let w' := final_world (consult_client index w) in
  clients_dir w' = clients_dir w /\
  index_file w' = index_file w /\
  ((exists name rest,
      stdin w = name :: rest /\
      consult_client index w = Ret Done w' /\
      queries_log w'
      = queries_log w ++ [consulta_line (clock w (clock_reads w)) (strip name)])
   \/
   ((forall w'', consult_client index w <> Ret Done w'') /\
    queries_log w' = queries_log w)).
Proof.
  world_cases w. unfold consult_client, consulta_line. unfold_ops. cbn.
  repeat (split_match; cbn in *; simplify_eq);
    (split; [reflexivity|]); (split; [reflexivity|]);
    try (right; split; [intros w''; discriminate | reflexivity]).
  left. do 2 eexists. split; [reflexivity|]. split; reflexivity.
Qed.

Lemma filename_nonempty (u v : str) : u ++ lit "_" ++ v <> [].
Proof. destruct u; discriminate. Qed.

(** X6.  Create, then consult: after a successful creation, consulting
    under any non-blank spelling with the same key succeeds, prints the
    record that was written (whose [nombre] is the trimmed name that was
    entered and whose single request carries the service and the
    description) and appends exactly one line to the query log. *)
Theorem create_then_consult (index : gmap str str) (w : world)
  (name tipo contacto servicio descripcion name' : str) (rest : list str) :
  stdin w = name :: tipo :: contacto :: servicio :: descripcion
            :: name' :: rest ->
  strip name <> [] ->
  index !! normalize_name name = None ->
  strip servicio <> [] ->
  strip descripcion <> [] ->
  normalize_name name' = normalize_name name ->
  strip name' <> [] ->
  exists index' w1 w2 d seed,
    create_client index w = Ret (Done, index') w1 /\
    consult_client index' w1 = Ret Done w2 /\
    last (stdout w2) = Some Consulta_registrada /\
    Json_dumps (JObj d) ∈ stdout w2 /\
    dict_get (lit "nombre") d = Some (JStr (strip name)) /\
    dict_get (lit "solicitudes") d = Some (JArr [seed]) /\
    seed = solicitud (uuid4_source w (S (uuid4_calls w))) (strip servicio)
             (strip descripcion) (clock w (S (clock_reads w))) /\
    queries_log w2
    = queries_log w
      ++ [consulta_line (clock w (S (S (clock_reads w)))) (strip name')].
Proof.
  intros Hin Hname Hidx Hserv Hdesc Hkey Hname'.
  destruct (create_client_done index w name tipo contacto servicio
              descripcion (name' :: rest) Hin Hname Hidx Hserv Hdesc)
    as (w1 & Hrun & Hc & _ & Hq & Hin1).
  cbn zeta in Hrun, Hc.
  assert (Hck : clock w1 = clock w /\ clock_reads w1 = S (S (clock_reads w))).
  { revert Hrun. world_cases w. unfold create_client, slugify.
    enter_with_name name.
    rewrite bool_decide_eq_false_2
      by (rewrite Hidx; intros [x Hx]; discriminate).
    cbn.
    destruct (strip servicio) as [|c1 t1] eqn:E1; [congruence|]. cbn.
    destruct (strip descripcion) as [|c2 t2] eqn:E2; [congruence|]. cbn.
    unfold_ops. cbn. intros H. injection H as <-. split; reflexivity. }
  destruct Hck as [Hck Hcn].
  set (fname := uuid4_source w (uuid4_calls w) ++ lit "_" ++ slugify name
                ++ lit ".json") in *.
  set (index' := <[normalize_name name := fname]> index) in *.
  assert (Hidx' : index' !! normalize_name name' = Some fname)
    by (rewrite Hkey; apply lookup_insert_eq).
  assert (Hfname : fname <> []) by apply filename_nonempty.
  match type of Hc with
  | _ = <[_ := ?t]> _ =>
      assert (Hfile1 : clients_dir w1 !! fname = Some t)
        by (rewrite Hc; apply lookup_insert_eq)
  end.
  destruct (consult_client_found index' w1 name' rest fname _
              Hin1 Hname' Hidx' Hfname Hfile1)
    as (w2 & Hrun2 & _ & _ & Hq2 & _ & Hout2).
  do 5 eexists. split; [exact Hrun|]. split; [exact Hrun2|].
  split; [rewrite Hout2; rewrite last_app; reflexivity|].
  split; [rewrite Hout2; apply elem_of_app; right;
          apply list_elem_of_further, list_elem_of_here|].
  split; [reflexivity|]. split; [reflexivity|]. split; [reflexivity|].
  rewrite Hq2, Hq, Hck, Hcn. reflexivity.
Qed.



(** X9.  [delete_client] is all or nothing: whatever it reads, either it
    succeeds, or it stops with the record files, the index file, the
    query log and the in-memory index as they were. *)
Theorem delete_client_all_or_nothing (index : gmap str str) (w : world) :
  (exists index' w', delete_client index w = Ret (Done, index') w') \/
  (same_store w (final_world (delete_client index w)) /\
   forall st index' w', delete_client index w = Ret (st, index') w' ->
                        index' = index).
Proof.
  world_cases w. unfold delete_client, same_store. unfold_ops. cbn.
  repeat (split_match; cbn in *; simplify_eq);
    try (left; do 2 eexists; reflexivity);
    right; (split; [repeat split|]);
    intros st index' w' H; congruence.
Qed.


(** X11.  A record file that is not valid JSON is a crash, not a "not
    found": for a customer that resolves to such a file, consult and
    modify both end with JSONDecodeError right after the name is read,
    before anything is written or logged. *)
Theorem corrupt_record_raises (index : gmap str str) (w : world)
  (name : str) (rest : list str) (f : str) :
  stdin w = name :: rest ->
  strip name <> [] ->
  index !! normalize_name name = Some f -> f <> [] ->
  clients_dir w !! f = Some Bad_text ->
  (exists w', consult_client index w = Raise JSONDecodeError w' /\
              same_store w w' /\ stdin w' = rest) /\
  (exists w', modify_client index w = Raise JSONDecodeError w' /\
              same_store w w' /\ stdin w' = rest).
Proof.
  intros Hin Hname Hidx Hf Hfile.
  world_cases w. split.
  - unfold consult_client. enter_with_name name.
    rewrite Hidx. destruct f as [|c0 f']; [congruence|]. cbn.
    rewrite bool_decide_eq_true_2 by (rewrite Hfile; eauto).
    unfold_ops. cbn. rewrite Hfile.
    eexists. split; [reflexivity|]. repeat split.
  - unfold modify_client. enter_with_name name.
    rewrite Hidx. destruct f as [|c0 f']; [congruence|]. cbn.
    rewrite bool_decide_eq_true_2 by (rewrite Hfile; eauto).
    unfold_ops. cbn. rewrite Hfile.
    eexists. split; [reflexivity|]. repeat split.
Qed.

(** X12.  The validation of [modify_client], for a customer that
    resolves to a readable record: a selector other than "1" and "2"
    (once trimmed) is answered with "Opción inválida."; a blank new
    contact, a blank service and a blank description are answered with
    "No puede ir vacío.".  In all four cases the function returns with
    the persisted state unchanged. *)
Theorem modify_client_validation (index : gmap str str) (w : world)
  (name opt : str) (rest : list str) (f : str) (v : json) :
  stdin w = name :: opt :: rest ->
  strip name <> [] ->
  index !! normalize_name name = Some f -> f <> [] ->
  clients_dir w !! f = Some (Json_text v) ->
  (strip opt <> lit "1" -> strip opt <> lit "2" ->
   exists w', modify_client index w = Ret Invalid_selector w' /\
              same_store w w' /\
              last (stdout w') = Some Opcion_invalida) /\
  (forall l1 rest1,
     rest = l1 :: rest1 -> strip l1 = [] ->
     strip opt = lit "1" \/ strip opt = lit "2" ->
     exists w', modify_client index w = Ret Empty_input w' /\
                same_store w w' /\
                last (stdout w') = Some No_puede_ir_vacio) /\
  (forall l1 l2 rest2,
     rest = l1 :: l2 :: rest2 -> strip l1 <> [] -> strip l2 = [] ->
     strip opt = lit "2" ->
     exists w', modify_client index w = Ret Empty_input w' /\
                same_store w w' /\
                last (stdout w') = Some No_puede_ir_vacio).
Proof.
  intros Hin Hname Hidx Hf Hfile.
  assert (Hlast : forall (l : list printed) x, last (l ++ [x]) = Some x)
    by (intros; apply last_snoc).
  world_cases w.
  split; [|split].
  - intros H1 H2. unfold modify_client. enter_with_name name.
    rewrite Hidx. destruct f as [|c0 f']; [congruence|]. cbn.
    rewrite bool_decide_eq_true_2 by (rewrite Hfile; eauto).
    unfold_ops. cbn. rewrite Hfile. cbn.
    rewrite !bool_decide_eq_false_2 by assumption. cbn.
    eexists. split; [reflexivity|]. split; [repeat split|]. apply Hlast.
  - intros l1 rest1 -> Hl1 Hopt. unfold modify_client. enter_with_name name.
    rewrite Hidx. destruct f as [|c0 f']; [congruence|]. cbn.
    rewrite bool_decide_eq_true_2 by (rewrite Hfile; eauto).
    unfold_ops. cbn. rewrite Hfile. cbn.
    destruct Hopt as [Hopt|Hopt]; rewrite Hopt.
    + rewrite bool_decide_eq_true_2 by reflexivity. cbn. rewrite Hl1. cbn.
      eexists. split; [reflexivity|]. split; [repeat split|]. apply Hlast.
    + rewrite bool_decide_eq_false_2 by discriminate.
      rewrite bool_decide_eq_true_2 by reflexivity. cbn. rewrite Hl1. cbn.
      eexists. split; [reflexivity|]. split; [repeat split|]. apply Hlast.
  - intros l1 l2 rest2 -> Hl1 Hl2 Hopt. unfold modify_client.
    enter_with_name name.
    rewrite Hidx. destruct f as [|c0 f']; [congruence|]. cbn.
    rewrite bool_decide_eq_true_2 by (rewrite Hfile; eauto).
    unfold_ops. cbn. rewrite Hfile. cbn. rewrite Hopt.
    rewrite bool_decide_eq_false_2 by discriminate.
    rewrite bool_decide_eq_true_2 by reflexivity. cbn.
    destruct (strip l1) as [|c1 t1] eqn:E1; [congruence|]. cbn.
    rewrite Hl2. cbn.
    eexists. split; [reflexivity|]. split; [repeat split|]. apply Hlast.
Qed.

(** X13.  The validation of [create_client], for a non-blank name whose
    key is free: a blank service, or a blank description after a service,
    is answered with "No puede ir vacío."; the function returns without
    writing a file, changing the index or drawing an identifier. *)
Theorem create_client_validation (index : gmap str str) (w : world)
  (name tipo contacto servicio : str) (rest : list str) :
  stdin w = name :: tipo :: contacto :: servicio :: rest ->
  strip name <> [] ->
  index !! normalize_name name = None ->
  (strip servicio = [] ->
   exists w', create_client index w = Ret (Empty_input, index) w' /\
              same_store w w' /\ uuid4_calls w' = uuid4_calls w /\
              last (stdout w') = Some No_puede_ir_vacio) /\
  (forall descripcion rest',
     rest = descripcion :: rest' ->
     strip servicio <> [] -> strip descripcion = [] ->
     exists w', create_client index w = Ret (Empty_input, index) w' /\
                same_store w w' /\ uuid4_calls w' = uuid4_calls w /\
                last (stdout w') = Some No_puede_ir_vacio).
Proof.
  intros Hin Hname Hidx.
  assert (Hlast : forall (l : list printed) x, last (l ++ [x]) = Some x)
    by (intros; apply last_snoc).
  world_cases w. split.
  - intros Hs. unfold create_client. enter_with_name name.
    rewrite bool_decide_eq_false_2
      by (rewrite Hidx; intros [x Hx]; discriminate).
    cbn. rewrite Hs. cbn.
    eexists. split; [reflexivity|]. split; [repeat split|].
    split; [reflexivity | apply Hlast].
  - intros descripcion rest' -> Hs Hd. unfold create_client.
    enter_with_name name.
    rewrite bool_decide_eq_false_2
      by (rewrite Hidx; intros [x Hx]; discriminate).
    cbn. destruct (strip servicio) as [|c1 t1] eqn:E1; [congruence|]. cbn.
    rewrite Hd. cbn.
    eexists. split; [reflexivity|]. split; [repeat split|].
    split; [reflexivity | apply Hlast].
Qed.

Lemma in_sync_iff (index : gmap str str) (w : world) :
  in_sync index w <->
  index_file w = Some (Index_text index) \/
  (index_file w = None /\ index = ∅).
Proof.
  unfold in_sync, load_index. destruct (index_file w) as [[m|]|]; split.
  - intros H. left. congruence.
  - intros [H | [H _]]; congruence.
  - discriminate.
  - intros [H | [H _]]; discriminate.
  - intros H. right. split; congruence.
  - intros [H | [_ H]]; congruence.
Qed.

Lemma consult_client_read_only_index (index : gmap str str) (w : world) :
  index_file (final_world (consult_client index w)) = index_file w.
Proof.
  world_cases w. unfold consult_client. unfold_ops. cbn.
  repeat (split_match; cbn in *; simplify_eq); reflexivity.
Qed.

(** X14.  The index file follows the in-memory index.  If reading the
    index file yields the in-memory index before an operation, it yields
    the index the operation returns afterwards: [create_client] and
    [delete_client] rewrite the file whenever they change the mapping,
    and [modify_client] and [consult_client] touch neither.  So the
    reloads of the menu loop after create and delete change nothing. *)
Theorem index_file_follows_index (index : gmap str str) (w : world) :
  in_sync index w ->
  (forall st index' w',
     create_client index w = Ret (st, index') w' -> in_sync index' w') /\
  (forall st index' w',
     delete_client index w = Ret (st, index') w' -> in_sync index' w') /\
  in_sync index (final_world (modify_client index w)) /\
  in_sync index (final_world (consult_client index w)).
Proof.
  intros Hs. split; [|split; [|split]].
  - intros st index' w'. rewrite !in_sync_iff in *. revert Hs.
    world_cases w. unfold create_client. unfold_ops. cbn.
    repeat (split_match; cbn in *; simplify_eq);
      intros Hs H; simplify_eq; cbn; auto.
  - intros st index' w'. rewrite !in_sync_iff in *. revert Hs.
    world_cases w. unfold delete_client. unfold_ops. cbn.
    repeat (split_match; cbn in *; simplify_eq);
      intros Hs H; simplify_eq; cbn; auto.
  - apply in_sync_iff. apply in_sync_iff in Hs.
    pose proof (modify_client_store index w) as H. cbn zeta in H.
    destruct H as [H _]. rewrite H. exact Hs.
  - apply in_sync_iff. apply in_sync_iff in Hs.
    rewrite consult_client_read_only_index. exact Hs.
Qed.

(** X15.  [create_client] and [modify_client] keep the index resolvable:
    if every entry of the index names an existing record file, so does
    every entry of the index that [create_client] returns, and
    [modify_client] removes no file. *)
Theorem create_modify_keep_resolvable (index : gmap str str) (w : world) :
  resolvable index w ->
  (forall st index' w',
     create_client index w = Ret (st, index') w' -> resolvable index' w') /\
  resolvable index (final_world (modify_client index w)).
Proof.
  intros Hres. split.
  - intros st index' w'. revert Hres. unfold resolvable.
    world_cases w. unfold create_client. unfold_ops. cbn.
    repeat (split_match; cbn in *; simplify_eq);
      intros Hres H; simplify_eq; cbn; try exact Hres.
    intros k f Hk.
    match type of Hk with
    | <[?key := ?fn]> _ !! _ = _ =>
        destruct (decide (k = key)) as [->|Hne];
        [rewrite lookup_insert_eq in Hk; simplify_eq;
         split; [apply filename_nonempty
                | rewrite lookup_insert_eq; eauto]
        | rewrite lookup_insert_ne in Hk by congruence;
          destruct (Hres k f Hk) as [Hf Hfile]; split; [exact Hf|];
          apply lookup_insert_is_Some;
          destruct (decide (fn = f)); auto]
    end.
  - intros k f Hk. destruct (Hres k f Hk) as [Hf Hfile].
    split; [exact Hf|].
    pose proof (modify_client_store index w) as Hst. cbn zeta in Hst.
    destruct Hst as (_ & _ & [-> | (g & d & d' & _ & -> & _)]);
      [exact Hfile|].
    apply lookup_insert_is_Some. destruct (decide (g = f)); auto.
Qed.

(** X16.  [delete_client] keeps the index resolvable when no two keys
    name the same file: the file it removes is named by the key it
    removes and by no other. *)
Theorem delete_keeps_resolvable (index : gmap str str) (w : world)
  (st : status) (index' : gmap str str) (w' : world) :
  resolvable index w ->
  one_file_per_key index ->
  delete_client index w = Ret (st, index') w' ->
  resolvable index' w' /\ one_file_per_key index'.
Proof.
  intros Hres Hone. revert Hres. unfold resolvable.
  world_cases w. unfold delete_client. unfold_ops. cbn.
  repeat (split_match; cbn in *; simplify_eq);
    intros Hres H; simplify_eq; cbn; try (split; assumption).
  rename select (index !! _ = Some _) into Hk.
  split.
  - intros k f0 Hf0.
    apply lookup_delete_Some in Hf0 as [Hne Hf0].
    destruct (Hres k f0 Hf0) as [Hf1 Hf2]. split; [exact Hf1|].
    rewrite lookup_delete_ne; [exact Hf2|].
    intros ->. apply Hne. exact (Hone _ _ _ Hk Hf0).
  - intros k1 k2 f0 H1 H2.
    apply lookup_delete_Some in H1 as [_ H1].
    apply lookup_delete_Some in H2 as [_ H2].
    exact (Hone _ _ _ H1 H2).
Qed.

(** X17.  A confirmed delete touches one customer only: the key and the
    file of that customer are gone, every other entry of the index and
    every other record file is as before, and the index written to the
    index file is the index returned. *)
Theorem delete_client_frame (index : gmap str str) (w : world)
  (name answer : str) (rest : list str) (f : str) :
  stdin w = name :: answer :: rest ->
  strip name <> [] ->
  index !! normalize_name name = Some f -> f <> [] ->
  is_Some (clients_dir w !! f) ->
  str_lower (strip answer) = lit "si" ->
  exists index' w',
    delete_client index w = Ret (Done, index') w' /\
    index' !! normalize_name name = None /\
    clients_dir w' !! f = None /\
    (forall k, k <> normalize_name name -> index' !! k = index !! k) /\
    (forall g, g <> f -> clients_dir w' !! g = clients_dir w !! g) /\
    index_file w' = Some (Index_text index') /\
    queries_log w' = queries_log w.
Proof.
  intros Hin Hname Hidx Hf Hfile Hans.
  destruct (delete_client_confirm index w name answer rest f
              Hin Hname Hidx Hf Hfile Hans)
    as (w' & Hrun & Hc & Hi & Hq & _).
  exists (delete (normalize_name name) index), w'.
  split; [exact Hrun|]. rewrite Hc.
  split; [apply lookup_delete_eq|]. split; [apply lookup_delete_eq|].
  split; [intros k Hk; apply lookup_delete_ne; congruence|].
  split; [intros g Hg; apply lookup_delete_ne; congruence|]. auto.
Qed.

(** X18.  A successful creation touches one customer only: the record is
    written under the generated identifier, an underscore, the slug of
    the name and ".json"; the index maps the key of the name to that file
    name and is written to the index file; every other entry of the
    index and every other record file is as before. *)
Theorem create_client_frame (index : gmap str str) (w : world)
  (name tipo contacto servicio descripcion : str) (rest : list str) :
  stdin w = name :: tipo :: contacto :: servicio :: descripcion :: rest ->
  strip name <> [] ->
  index !! normalize_name name = None ->
  strip servicio <> [] ->
  strip descripcion <> [] ->
  let fname := uuid4_source w (uuid4_calls w) ++ lit "_" ++ slugify name
               ++ lit ".json" in
  exists index' w',
    create_client index w = Ret (Done, index') w' /\
    index' !! normalize_name name = Some fname /\
    is_Some (clients_dir w' !! fname) /\
    (forall k, k <> normalize_name name -> index' !! k = index !! k) /\
    (forall g, g <> fname -> clients_dir w' !! g = clients_dir w !! g) /\
    index_file w' = Some (Index_text index') /\
    queries_log w' = queries_log w.
Proof.
  intros Hin Hname Hidx Hserv Hdesc fname.
  destruct (create_client_done index w name tipo contacto servicio
              descripcion rest Hin Hname Hidx Hserv Hdesc)
    as (w' & Hrun & Hc & Hi & Hq & _).
  cbn zeta in Hrun, Hc, Hi. fold fname in Hrun, Hc, Hi.
  exists (<[normalize_name name := fname]> index), w'.
  split; [exact Hrun|]. rewrite Hc.
  split; [apply lookup_insert_eq|].
  split; [rewrite lookup_insert_eq; eauto|].
  split; [intros k Hk; apply lookup_insert_ne; congruence|].
  split; [intros g Hg; apply lookup_insert_ne; congruence|]. auto.
Qed.

(** ** How the operations compose *)

(** X20.  Creating the same customer twice: after a successful creation,
    a creation under any non-blank spelling with the same key is a
    conflict, and leaves the persisted state exactly as the first
    creation left it. *)
Theorem create_twice_conflict (index : gmap str str) (w : world)
  (name tipo contacto servicio descripcion name' : str) (rest : list str) :
  stdin w = name :: tipo :: contacto :: servicio :: descripcion
            :: name' :: rest ->
  strip name <> [] ->
  index !! normalize_name name = None ->
  strip servicio <> [] ->
  strip descripcion <> [] ->
  normalize_name name' = normalize_name name ->
  strip name' <> [] ->
  exists index1 w1 w2,
    create_client index w = Ret (Done, index1) w1 /\
    create_client index1 w1 = Ret (Conflict, index1) w2 /\
    same_store w1 w2 /\
    uuid4_calls w2 = uuid4_calls w1.
Proof.
  intros Hin Hname Hidx Hserv Hdesc Hkey Hname'.
  destruct (create_client_done index w name tipo contacto servicio
              descripcion (name' :: rest) Hin Hname Hidx Hserv Hdesc)
    as (w1 & Hrun & _ & _ & _ & Hin1).
  cbn zeta in Hrun.
  set (index1 := <[normalize_name name :=
                     uuid4_source w (uuid4_calls w) ++ lit "_"
                     ++ slugify name ++ lit ".json"]> index) in *.
  assert (Htaken : is_Some (index1 !! normalize_name name'))
    by (rewrite Hkey; unfold index1; rewrite lookup_insert_eq; eauto).
  destruct (create_client_taken index1 w1 name' rest Hin1 Hname' Htaken)
    as (w2 & Hrun2 & Hsame & Hu & _).
  eauto 10.
Qed.

(** X21.  Deleting undoes creating: when the file name generated for a
    new customer is not in use, creating the customer and then deleting
    it (confirmed, under any spelling with the same key) gives back the
    record files and the in-memory index there were before; the index
    file holds that index. *)
Theorem create_then_delete_restores (index : gmap str str) (w : world)
  (name tipo contacto servicio descripcion name' answer : str)
  (rest : list str) :
  stdin w = name :: tipo :: contacto :: servicio :: descripcion
            :: name' :: answer :: rest ->
  strip name <> [] ->
  index !! normalize_name name = None ->
  strip servicio <> [] ->
  strip descripcion <> [] ->
  clients_dir w !! (uuid4_source w (uuid4_calls w) ++ lit "_" ++ slugify name
                    ++ lit ".json") = None ->
  normalize_name name' = normalize_name name ->
  strip name' <> [] ->
  str_lower (strip answer) = lit "si" ->
  exists index1 w1 w2,
    create_client index w = Ret (Done, index1) w1 /\
    delete_client index1 w1 = Ret (Done, index) w2 /\
    clients_dir w2 = clients_dir w /\
    index_file w2 = Some (Index_text index) /\
    queries_log w2 = queries_log w /\
    stdin w2 = rest.
Proof.
  intros Hin Hname Hidx Hserv Hdesc Hfresh Hkey Hname' Hans.
  destruct (create_client_done index w name tipo contacto servicio
              descripcion (name' :: answer :: rest)
              Hin Hname Hidx Hserv Hdesc)
    as (w1 & Hrun & Hc & _ & Hq & Hin1).
  cbn zeta in Hrun, Hc.
  set (fname := uuid4_source w (uuid4_calls w) ++ lit "_" ++ slugify name
                ++ lit ".json") in *.
  set (index1 := <[normalize_name name := fname]> index) in *.
  assert (Hidx1 : index1 !! normalize_name name' = Some fname)
    by (rewrite Hkey; apply lookup_insert_eq).
  assert (Hfile1 : is_Some (clients_dir w1 !! fname))
    by (rewrite Hc, lookup_insert_eq; eauto).
  destruct (delete_client_confirm index1 w1 name' answer rest fname
              Hin1 Hname' Hidx1 (filename_nonempty _ _) Hfile1 Hans)
    as (w2 & Hrun2 & Hc2 & Hi2 & Hq2 & Hin2 & _).
  assert (Hback : delete (normalize_name name') index1 = index)
    by (rewrite Hkey; apply delete_insert_id; exact Hidx).
  rewrite Hback in Hrun2, Hi2.
  exists index1, w1, w2. split; [exact Hrun|]. split; [exact Hrun2|].
  split; [rewrite Hc2, Hc; apply delete_insert_id; exact Hfresh|].
  split; [exact Hi2|]. split; [congruence | exact Hin2].
Qed.

(** X22.  Deleting frees the name: after a confirmed delete, a creation
    under any non-blank spelling with the same key is not a conflict; it
    succeeds and the name resolves again, to the new file. *)
Theorem delete_then_create (index : gmap str str) (w : world)
  (name answer name' tipo contacto servicio descripcion : str)
  (rest : list str) (f : str) :
  stdin w = name :: answer :: name' :: tipo :: contacto :: servicio
            :: descripcion :: rest ->
  strip name <> [] ->
  index !! normalize_name name = Some f -> f <> [] ->
  is_Some (clients_dir w !! f) ->
  str_lower (strip answer) = lit "si" ->
  normalize_name name' = normalize_name name ->
  strip name' <> [] ->
  strip servicio <> [] ->
  strip descripcion <> [] ->
  exists index1 w1 index2 w2 fname,
    delete_client index w = Ret (Done, index1) w1 /\
    create_client index1 w1 = Ret (Done, index2) w2 /\
    find_client_file index2 name w2 = Ret (Some fname) w2 /\
    fname = uuid4_source w (uuid4_calls w) ++ lit "_" ++ slugify name'
            ++ lit ".json".
Proof.
  intros Hin Hname Hidx Hf Hfile Hans Hkey Hname' Hserv Hdesc.
  destruct (delete_client_confirm index w name answer
              (name' :: tipo :: contacto :: servicio :: descripcion :: rest)
              f Hin Hname Hidx Hf Hfile Hans)
    as (w1 & Hrun & _ & _ & _ & Hin1 & _).
  assert (Hus : uuid4_source w1 = uuid4_source w /\
                uuid4_calls w1 = uuid4_calls w).
  { revert Hrun. world_cases w. unfold delete_client. enter_with_name name.
    rewrite Hidx. destruct f as [|c0 f']; [congruence|]. cbn.
    rewrite bool_decide_eq_true_2 by assumption. cbn.
    rewrite bool_decide_eq_true_2 by assumption. cbn.
    unfold os_remove. cbn. destruct Hfile as [x Hx]. rewrite Hx. cbn.
    intros H. injection H as <-. split; reflexivity. }
  destruct Hus as [Hus Hun].
  assert (Hfree : delete (normalize_name name) index !! normalize_name name'
                  = None)
    by (rewrite Hkey; apply lookup_delete_eq).
  destruct (create_client_done (delete (normalize_name name) index) w1
              name' tipo contacto servicio
              descripcion rest Hin1 Hname' Hfree Hserv Hdesc)
    as (w2 & Hrun2 & Hc2 & _).
  cbn zeta in Hrun2, Hc2. rewrite Hus, Hun in Hrun2, Hc2.
  do 5 eexists. split; [exact Hrun|]. split; [exact Hrun2|].
  split; [|reflexivity].
  apply find_client_file_hit.
  - rewrite <- Hkey. apply lookup_insert_eq.
  - apply filename_nonempty.
  - rewrite Hc2, lookup_insert_eq. eauto.
Qed.

(** X23.  A stale index entry is stuck.  When the index maps the key of
    a non-blank name to a file that does not exist, consult and delete
    answer "Cliente no encontrado." while create answers "Ya existe ese
    cliente.": the program offers no way to remove the entry or to
    register the name again, and none of the three changes anything. *)
Theorem stale_entry_is_stuck (index : gmap str str) (w : world)
  (name : str) (rest : list str) (f : str) :
  stdin w = name :: rest ->
  strip name <> [] ->
  index !! normalize_name name = Some f ->
  clients_dir w !! f = None ->
  (exists w', consult_client index w = Ret Not_found w' /\ same_store w w') /\
  (exists w', delete_client index w = Ret (Not_found, index) w' /\
              same_store w w') /\
  (exists w', create_client index w = Ret (Conflict, index) w' /\
              same_store w w').
Proof.
  intros Hin Hname Hidx Hfile.
  assert (Hres : index !! normalize_name name = None \/
                 (exists f, index !! normalize_name name = Some f /\
                            clients_dir w !! f = None)) by eauto.
  split; [|split].
  - destruct (consult_client_unresolved index w name rest Hin Hname Hres)
      as (w' & ? & ? & _). eauto.
  - destruct (delete_client_unresolved index w name rest Hin Hname Hres)
      as (w' & ? & ? & _). eauto.
  - destruct (create_client_taken index w name rest Hin Hname)
      as (w' & ? & ? & _); eauto.
Qed.

(** ** The menu loop ends on finite input *)

Local Open Scope nat_scope.

Lemma reads_forward_of_outcome {A} (m : M A) :
  (forall w, match m w with
             | Ret _ w' => length (stdin w') <= length (stdin w)
             | Raise _ _ => True
             end) ->
  reads_forward m.
Proof. intros H w a w' E. specialize (H w). rewrite E in H. exact H. Qed.

Lemma reads_forward_bind {A B} (m : M A) (k : A -> M B) :
  reads_forward m -> (forall a, reads_forward (k a)) ->
  reads_forward (bind m k).
Proof.
  intros Hm Hk w b w' E. unfold bind in E.
  destruct (m w) as [a w1|e w1] eqn:E1; [|discriminate].
  specialize (Hm _ _ _ E1). specialize (Hk _ _ _ _ E). lia.
Qed.

Lemma reads_forward_print (p : printed) : reads_forward (py_print p).
Proof. intros w a w' E. injection E as _ <-. reflexivity. Qed.

Lemma reads_forward_load_index : reads_forward load_index.
Proof.
  intros w a w' E. unfold load_index in E.
  destruct (index_file w) as [[m|]|]; simplify_eq; reflexivity.
Qed.

Lemma py_input_consumes (p : prompt) (w : world) (l : str) (w' : world) :
  py_input p w = Ret l w' -> S (length (stdin w')) = length (stdin w).
Proof.
  unfold py_input. cbn. destruct (stdin w) as [|x r]; [discriminate|].
  intros E. injection E as _ <-. reflexivity.
Qed.

Lemma reads_forward_press_enter : reads_forward press_enter.
Proof.
  intros w a w' E. unfold press_enter, bind in E.
  destruct (py_input Ask_enter w) as [l w1|e w1] eqn:E1; [|discriminate].
  apply py_input_consumes in E1. injection E as _ <-. lia.
Qed.

Lemma reads_forward_list_clients (index : gmap str str) :
  reads_forward (list_clients index).
Proof.
  intros w a w' E.
  destruct (list_clients_out index w) as [lines E'].
  rewrite E' in E. injection E as _ <-. reflexivity.
Qed.

Lemma reads_forward_consult (index : gmap str str) :
  reads_forward (consult_client index).
Proof.
  apply reads_forward_of_outcome. intros w.
  world_cases w. unfold consult_client. unfold_ops. cbn.
  repeat (split_match; cbn in *; simplify_eq); auto; lia.
Qed.

Lemma reads_forward_create (index : gmap str str) :
  reads_forward (create_client index).
Proof.
  apply reads_forward_of_outcome. intros w.
  world_cases w. unfold create_client. unfold_ops. cbn.
  repeat (split_match; cbn in *; simplify_eq); auto; lia.
Qed.

Lemma reads_forward_modify (index : gmap str str) :
  reads_forward (modify_client index).
Proof.
  apply reads_forward_of_outcome. intros w.
  world_cases w. unfold modify_client. unfold_ops. cbn.
  repeat (split_match; cbn in *; simplify_eq); auto; lia.
Qed.

Lemma reads_forward_delete (index : gmap str str) :
  reads_forward (delete_client index).
Proof.
  apply reads_forward_of_outcome. intros w.
  world_cases w. unfold delete_client. unfold_ops. cbn.
  repeat (split_match; cbn in *; simplify_eq); auto; lia.
Qed.

Lemma bind_congr_below {A B} (n : nat) (m : M A) (k1 k2 : A -> M B)
  (w : world) :
  reads_forward m ->
  length (stdin w) < n ->
  (forall a w', length (stdin w') < n -> k1 a w' = k2 a w') ->
  bind m k1 w = bind m k2 w.
Proof.
  intros Hm Hw Hk. unfold bind.
  destruct (m w) as [a w1|e w1] eqn:E; [|reflexivity].
  apply Hk. specialize (Hm _ _ _ E). lia.
Qed.

Lemma bind_input_below {B} (n : nat) (p : prompt) (k1 k2 : str -> M B)
  (w : world) :
  length (stdin w) < S n ->
  (forall a w', length (stdin w') < n -> k1 a w' = k2 a w') ->
  bind (py_input p) k1 w = bind (py_input p) k2 w.
Proof.
  intros Hw Hk. unfold bind.
  destruct (py_input p w) as [a w1|e w1] eqn:E; [|reflexivity].
  apply Hk. apply py_input_consumes in E. lia.
Qed.

(** One more iteration than there are lines is never needed. *)
Lemma main_loop_step (n a b : nat) (index : gmap str str) (w : world) :
  length (stdin w) < S n ->
  (forall index' w', length (stdin w') < n ->
                     main_loop a index' w' = main_loop b index' w') ->
  main_loop (S a) index w = main_loop (S b) index w.
Proof.
  intros Hw Hrec. cbn [main_loop].
  do 7 (apply (bind_congr_below (S n));
        [apply reads_forward_print | exact Hw | clear w Hw; intros _ w Hw]).
  apply (bind_input_below n); [exact Hw|]. clear w Hw. intros opt w Hw.
  assert (Henter : forall index' w',
             length (stdin w') < n ->
             bind press_enter (fun _ => main_loop a index') w'
             = bind press_enter (fun _ => main_loop b index') w').
  { intros index' w' Hw'. apply (bind_congr_below n);
      [apply reads_forward_press_enter | exact Hw' | intros _ w2; apply Hrec]. }
  assert (Hreload : forall w',
             length (stdin w') < n ->
             bind load_index
               (fun index' => bind press_enter (fun _ => main_loop a index')) w'
             = bind load_index
                 (fun index' => bind press_enter (fun _ => main_loop b index')) w').
  { intros w' Hw'. apply (bind_congr_below n);
      [apply reads_forward_load_index | exact Hw'
      | intros index' w2; apply Henter]. }
  repeat case_bool_decide; try reflexivity.
  - apply (bind_congr_below n);
      [apply reads_forward_list_clients | exact Hw | intros _ w'; apply Henter].
  - apply (bind_congr_below n);
      [apply reads_forward_consult | exact Hw | intros _ w'; apply Henter].
  - apply (bind_congr_below n);
      [apply reads_forward_create | exact Hw | intros _ w'; apply Hreload].
  - apply (bind_congr_below n);
      [apply reads_forward_modify | exact Hw | intros _ w'; apply Henter].
  - apply (bind_congr_below n);
      [apply reads_forward_delete | exact Hw | intros _ w'; apply Hreload].
  - apply (bind_congr_below n);
      [apply reads_forward_print | exact Hw | intros _ w'; apply Hrec].
Qed.

Lemma main_loop_succ (n : nat) :
  forall index w, length (stdin w) < S n ->
                  main_loop (S n) index w = main_loop (S (S n)) index w.
Proof.
  induction n as [|n IH]; intros index w Hw;
    apply (main_loop_step _ _ _ _ _ Hw); intros index' w' Hw'.
  - lia.
  - apply IH. lia.
Qed.

Lemma ended_bind_below {A B} (n : nat) (m : M A) (k : A -> M B) (w : world) :
  reads_forward m ->
  length (stdin w) < n ->
  (forall a w', length (stdin w') < n -> ended (k a w')) ->
  ended (bind m k w).
Proof.
  intros Hm Hw Hk. unfold bind.
  destruct (m w) as [a w1|e w1] eqn:E; [|exact I].
  apply Hk. specialize (Hm _ _ _ E). lia.
Qed.

Lemma ended_input_below {B} (n : nat) (p : prompt) (k : str -> M B)
  (w : world) :
  length (stdin w) < S n ->
  (forall a w', length (stdin w') < n -> ended (k a w')) ->
  ended (bind (py_input p) k w).
Proof.
  intros Hw Hk. unfold bind.
  destruct (py_input p w) as [a w1|e w1] eqn:E; [|exact I].
  apply Hk. apply py_input_consumes in E. lia.
Qed.

Lemma main_loop_ended (fuel : nat) :
  forall index w, length (stdin w) < fuel -> ended (main_loop fuel index w).
Proof.
  induction fuel as [|n IH]; intros index w Hw; [lia|]. cbn [main_loop].
  do 7 (apply (ended_bind_below (S n));
        [apply reads_forward_print | exact Hw | clear w Hw; intros _ w Hw]).
  apply (ended_input_below n); [exact Hw|]. clear w Hw. intros opt w Hw.
  assert (Henter : forall index' w',
             length (stdin w') < n ->
             ended (bind press_enter (fun _ => main_loop n index') w')).
  { intros index' w' Hw'. apply (ended_bind_below n);
      [apply reads_forward_press_enter | exact Hw' | intros _ w2; apply IH]. }
  assert (Hreload : forall w',
             length (stdin w') < n ->
             ended (bind load_index
                      (fun index' =>
                         bind press_enter (fun _ => main_loop n index')) w')).
  { intros w' Hw'. apply (ended_bind_below n);
      [apply reads_forward_load_index | exact Hw'
      | intros index' w2; apply Henter]. }
  repeat case_bool_decide.
  - apply (ended_bind_below n);
      [apply reads_forward_list_clients | exact Hw | intros _ w'; apply Henter].
  - apply (ended_bind_below n);
      [apply reads_forward_consult | exact Hw | intros _ w'; apply Henter].
  - apply (ended_bind_below n);
      [apply reads_forward_create | exact Hw | intros _ w'; apply Hreload].
  - apply (ended_bind_below n);
      [apply reads_forward_modify | exact Hw | intros _ w'; apply Henter].
  - apply (ended_bind_below n);
      [apply reads_forward_delete | exact Hw | intros _ w'; apply Hreload].
  - cbn. apply last_snoc.
  - apply (ended_bind_below n);
      [apply reads_forward_print | exact Hw | intros _ w'; apply IH].
Qed.

(** X19.  The menu loop ends on finite input: it reads at least one line
    per iteration and no operation puts a line back, so with more
    iterations allowed than there are lines to read the run is never cut
    short.  It stops by option "0", after printing "Saliendo...", or by
    an exception (at the latest EOFError), and allowing more iterations
    changes nothing. *)
Theorem main_ends_on_finite_input (fuel : nat) (index : gmap str str)
  (w : world) :
  length (stdin w) < fuel ->
  ended (main_loop fuel index w) /\
  ended (main fuel w) /\
  forall fuel', fuel <= fuel' ->
    main_loop fuel index w = main_loop fuel' index w /\
    main fuel w = main fuel' w.
Proof.
  intros Hw. split; [apply main_loop_ended, Hw|]. split.
  { unfold main. apply (ended_bind_below fuel);
      [apply reads_forward_load_index | exact Hw
      | intros index0 w0; apply main_loop_ended]. }
  intros fuel' Hle.
  assert (Hloop : forall index0 w0,
             length (stdin w0) < fuel ->
             main_loop fuel index0 w0 = main_loop fuel' index0 w0).
  { induction Hle as [|fuel' Hle IH]; intros index0 w0 Hw0; [reflexivity|].
    rewrite (IH index0 w0 Hw0).
    destruct fuel' as [|n]; [lia|]. apply main_loop_succ. lia. }
  split; [apply Hloop, Hw|].
  unfold main. apply (bind_congr_below fuel);
    [apply reads_forward_load_index | exact Hw | intros index0 w0; apply Hloop].
Qed.

Local Close Scope nat_scope.

End App.


Example normalize_jose :
  normalize_name lower_latin1 [74; 111; 115; 233; 32; 80; 233; 114; 101; 122]
  = lit "jose perez".
Proof. reflexivity. Qed.

Example normalize_jose_spaces :
  normalize_name lower_latin1 (lit "jose   perez") = lit "jose perez".
Proof. reflexivity. Qed.

Example strip_example : strip (lit "  a b  ") = lit "a b".
Proof. reflexivity. Qed.


Example demo_uuid_0 : demo_uuid 0 = lit "id0".
Proof. reflexivity. Qed.

Example ana_world_is_created :
  exists w,
    create_client lower_latin1 ∅
      (empty_world [lit "Ana"; []; []; lit "Internet"; lit "Alta"])
    = Ret (Done, ana_index) w /\
    clients_dir w = clients_dir (ana_world []) /\
    index_file w = index_file (ana_world []).
Proof. eexists. split; [|split]; vm_compute; reflexivity. Qed.

(** The scenario of the specification: "LINA GOMEZ" finds the customer
    created as "Lina Gomez" with an accent, whose file name ends with the
    slug. *)
Example slugify_lina :
  slugify lower_latin1 [76; 105; 110; 97; 32; 71; 243; 109; 101; 122]
  = lit "lina-gomez" /\
  normalize_name lower_latin1 (lit "LINA GOMEZ")
  = normalize_name lower_latin1 [76; 105; 110; 97; 32; 71; 243; 109; 101; 122].
Proof. split; vm_compute; reflexivity. Qed.

(** A consultation under another spelling of the name finds the record
    and appends exactly one line to the query log. *)
Example consult_ana :
  exists w,
    consult_client lower_latin1 ana_index (ana_world [lit " ANA "])
    = Ret Done w /\
    queries_log w = [lit "2024-05-01 10:00:02 | CONSULTA | ANA"] /\
    stdout w = [Prompt Ask_nombre; Json_dumps (JObj ana_record);
                Consulta_registrada].
Proof. eexists. split; [|split]; vm_compute; reflexivity. Qed.

(** A whole session: create "Ana", look her up, leave. *)
Example main_session :
  exists w,
    main lower_latin1 10
      (empty_world [lit "3"; lit "Ana"; []; []; lit "Internet"; lit "Alta"; [];
                    lit "2"; lit "ana"; []; lit "0"])
    = Ret tt w /\
    index_file w = Some (Index_text ana_index) /\
    clients_dir w = {[ ana_file := Json_text (JObj ana_record) ]} /\
    queries_log w = [lit "2024-05-01 10:00:02 | CONSULTA | ana"] /\
    stdin w = [].
Proof. eexists. split; [|split; [|split; [|split]]]; vm_compute; reflexivity. Qed.

(** ** The normaliser is not idempotent *)

(** C3 (fails on the code).  The claim is that
    normalize(normalize(x)) = normalize(x) for every input.  Line 22
    trims before line 28 removes the punctuation, so a space next to a
    leading or trailing punctuation mark survives in the key: "Ana !"
    has the key "ana " with a trailing space, and normalising that key
    gives "ana". *)
Theorem normalize_name_not_idempotent :
  normalize_name lower_latin1 (lit "Ana !") = lit "ana " /\
  normalize_name lower_latin1 (normalize_name lower_latin1 (lit "Ana !"))
  = lit "ana" /\
  normalize_name lower_latin1 (normalize_name lower_latin1 (lit "Ana !"))
  <> normalize_name lower_latin1 (lit "Ana !").
Proof.
  split; [vm_compute; reflexivity|]. split; [vm_compute; reflexivity|].
  vm_compute. discriminate.
Qed.

(** The consequence for the index: the customer created as "Ana !" is
    not found under "Ana". *)
Example ana_bang_not_found_as_ana :
  exists index w,
    create_client lower_latin1 ∅
      (empty_world [lit "Ana !"; []; []; lit "Internet"; lit "Alta"])
    = Ret (Done, index) w /\
    find_client_file lower_latin1 index (lit "Ana !") w
    = Ret (Some (lit "id0_ana-.json")) w /\
    find_client_file lower_latin1 index (lit "Ana") w = Ret None w.
Proof.
  do 2 eexists. split; [vm_compute; reflexivity|].
  split; vm_compute; reflexivity.
Qed.

Lemma lower_latin1_fixes_keys (s : str) :
  Forall (fun c => in_az09sp c = true) s -> lower_latin1 s = s.
Proof.
  unfold lower_latin1. induction 1 as [|c t Hc Ht IH]; cbn; [reflexivity|].
  rewrite IH. f_equal. unfold lower_cp.
  unfold in_az09sp in Hc.
  destruct ((65 <=? c) && (c <=? 90)) eqn:E1.
  { apply andb_prop in E1 as [H1 H2].
    apply N.leb_le in H1. apply N.leb_le in H2.
    repeat (apply orb_prop in Hc as [Hc|Hc]);
      repeat match goal with
             | H : (_ && _) = true |- _ => apply andb_prop in H as [? ?]
             | H : (_ <=? _) = true |- _ => apply N.leb_le in H
             | H : (_ =? _) = true |- _ => apply N.eqb_eq in H
             end; lia. }
  destruct ((192 <=? c) && (c <=? 222) && negb (c =? 215)) eqn:E2;
    [|reflexivity].
  apply andb_prop in E2 as [E2 _]. apply andb_prop in E2 as [H1 _].
  apply N.leb_le in H1. apply in_az09sp_le in Hc. lia.
Qed.

(** With the Latin-1 table the normaliser is stable from its second
    application on, for every input. *)
Example normalize_name_latin1_stable (name : str) :
  normalize_name lower_latin1
    (normalize_name lower_latin1 (normalize_name lower_latin1 name))
  = normalize_name lower_latin1 (normalize_name lower_latin1 name).
Proof. apply normalize_name_twice, lower_latin1_fixes_keys. Qed.

(** ** The properties on sample data *)

Ltac run := vm_compute; first [reflexivity | discriminate].

(** "Ana" exists; creating "ana" is a conflict. *)
Lemma create_client_conflict_witness :
  exists w',
    create_client lower_latin1 ana_index (ana_world [lit "ana"])
    = Ret (Conflict, ana_index) w' /\
    clients_dir w' = clients_dir (ana_world [lit "ana"]) /\
    index_file w' = index_file (ana_world [lit "ana"]) /\
    queries_log w' = queries_log (ana_world [lit "ana"]) /\
    uuid4_calls w' = uuid4_calls (ana_world [lit "ana"]) /\
    stdout w' = stdout (ana_world [lit "ana"])
                ++ [Prompt Ask_nombre; Ya_existe_ese_cliente].
Proof.
  apply (create_client_conflict lower_latin1 ana_index
           (ana_world [lit "ana"]) (lit "Ana") (lit "ana") []);
    [run | eexists; run | reflexivity | run].
Defined.

(** The customer created as "!!!" has the empty key, and so has a blank
    name; creating the blank name is rejected as empty input, not as a
    conflict. *)
Lemma create_client_blank_second_name :
  normalize_name lower_latin1 (lit "!!!")
  = normalize_name lower_latin1 (lit "   ") /\
  exists w,
    create_client lower_latin1 ∅
      (empty_world [lit "!!!"; []; []; lit "Internet"; lit "Alta"; lit "   "])
    = Ret (Done, punct_index) w /\
    is_Some (punct_index !! normalize_name lower_latin1 (lit "!!!")) /\
    stdin w = [lit "   "] /\
    exists w',
      create_client lower_latin1 punct_index w
      = Ret (Empty_input, punct_index) w' /\
      stdout w' = stdout w ++ [Prompt Ask_nombre; No_puede_ir_vacio] /\
      forall w'', create_client lower_latin1 punct_index w
                  <> Ret (Conflict, punct_index) w''.
Proof.
  split; [run|]. eexists. split; [run|].
  split; [eexists; run|]. split; [run|].
  eexists. split; [run|]. split; [run|].
  intros w'' H. vm_compute in H. discriminate.
Defined.


Lemma modify_many_appends_witness :
  exists w' d',
    modify_many lower_latin1 2 ana_index
      (ana_world [lit "Ana"; lit "2"; lit "TV"; lit "Alta TV";
                  lit " ANA "; lit " 2 "; lit "Internet"; lit "Cambio de plan"])
    = Ret [Done; Done] w' /\
    clients_dir w' !! ana_file = Some (Json_text (JObj d')) /\
    dict_get (lit "solicitudes") d'
    = Some (JArr ([ana_request] ++
                  [solicitud (lit "id2") (lit "TV") (lit "Alta TV")
                     (lit "2024-05-01 10:00:02");
                   solicitud (lit "id3") (lit "Internet")
                     (lit "Cambio de plan") (lit "2024-05-01 10:00:03")])) /\
    (forall k, k <> lit "solicitudes" ->
               dict_get k d' = dict_get k ana_record) /\
    stdin w' = [].
Proof.
  apply (modify_many_appends lower_latin1
           [(lit "Ana", lit "2", lit "TV", lit "Alta TV");
            (lit " ANA ", lit " 2 ", lit "Internet", lit "Cambio de plan")]
           ana_index
           (ana_world [lit "Ana"; lit "2"; lit "TV"; lit "Alta TV";
                       lit " ANA "; lit " 2 "; lit "Internet";
                       lit "Cambio de plan"])
           [] ana_file ana_record [ana_request]);
    [reflexivity
    | repeat (apply List.Forall_cons; [unfold valid_append; repeat apply conj|]);
      try apply List.Forall_nil; run
    | run | run | run].
Defined.

(** The index names a file that is not there. *)
Lemma unresolved_name_not_found_witness :
  find_client_file lower_latin1 ana_index (lit "Ana") (stale_world [lit "Ana"])
  = Ret None (stale_world [lit "Ana"]) /\
  (exists w', consult_client lower_latin1 ana_index (stale_world [lit "Ana"])
              = Ret Not_found w' /\
     same_store (stale_world [lit "Ana"]) w' /\
     stdout w' = stdout (stale_world [lit "Ana"])
                 ++ [Prompt Ask_nombre; Cliente_no_encontrado]) /\
  (exists w', modify_client lower_latin1 ana_index (stale_world [lit "Ana"])
              = Ret Not_found w' /\
     same_store (stale_world [lit "Ana"]) w' /\
     stdout w' = stdout (stale_world [lit "Ana"])
                 ++ [Prompt Ask_nombre; Cliente_no_encontrado]) /\
  (exists w', delete_client lower_latin1 ana_index (stale_world [lit "Ana"])
              = Ret (Not_found, ana_index) w' /\
     same_store (stale_world [lit "Ana"]) w' /\
     stdout w' = stdout (stale_world [lit "Ana"])
                 ++ [Prompt Ask_nombre; Cliente_no_encontrado]).
Proof.
  destruct (unresolved_name_not_found lower_latin1 ana_index
              (stale_world [lit "Ana"]) (lit "Ana") []) as [Hfind Hops];
    [reflexivity | right; exists ana_file; split; run |].
  split; [exact Hfind|]. apply Hops. run.
Defined.

(** A blank name whose key is in no index: the three operations report
    the empty input, not "not found". *)
Lemma blank_name_not_reported_not_found :
  (∅ : gmap str str) !! normalize_name lower_latin1 (lit " ") = None /\
  (exists w', consult_client lower_latin1 ∅ (empty_world [lit " "])
              = Ret Empty_input w' /\
     stdout w' = [Prompt Ask_nombre; No_puede_ir_vacio]) /\
  (exists w', modify_client lower_latin1 ∅ (empty_world [lit " "])
              = Ret Empty_input w' /\
     stdout w' = [Prompt Ask_nombre; No_puede_ir_vacio]) /\
  (exists w', delete_client lower_latin1 ∅ (empty_world [lit " "])
              = Ret (Empty_input, ∅) w' /\
     stdout w' = [Prompt Ask_nombre; No_puede_ir_vacio]) /\
  (forall w', consult_client lower_latin1 ∅ (empty_world [lit " "])
              <> Ret Not_found w').
Proof.
  split; [run|].
  split; [eexists; split; run|].
  split; [eexists; split; run|].
  split; [eexists; split; run|].
  intros w' H. vm_compute in H. discriminate.
Defined.

Lemma delete_client_cancelled_no_mutation_witness :
  exists index' w',
    delete_client lower_latin1 ana_index (ana_world [lit "Ana"; lit "no"])
    = Ret (Cancelled, index') w' /\
    index' = ana_index /\
    index' !! normalize_name lower_latin1 (lit "Ana") = Some ana_file /\
    clients_dir w' !! ana_file = Some (Json_text (JObj ana_record)) /\
    clients_dir w' = clients_dir (ana_world [lit "Ana"; lit "no"]) /\
    index_file w' = index_file (ana_world [lit "Ana"; lit "no"]) /\
    queries_log w' = queries_log (ana_world [lit "Ana"; lit "no"]).
Proof.
  apply (delete_client_cancelled_no_mutation lower_latin1 ana_index
           (ana_world [lit "Ana"; lit "no"]) (lit "Ana") (lit "no") []
           ana_file (Json_text (JObj ana_record)));
    [reflexivity | run | run | run | run | run].
Defined.



(** The answer "sí", with an accent, does not confirm. *)
Lemma delete_client_iff_si_witness :
  ((exists index' w',
      delete_client lower_latin1 ana_index (ana_world [lit "Ana"; [115; 237]])
      = Ret (Done, index') w' /\
      clients_dir w' !! ana_file = None)
   <-> lower_latin1 (strip [115; 237]) = lit "si") /\
  (lower_latin1 (strip [115; 237]) <> lit "si" ->
   exists w',
     delete_client lower_latin1 ana_index (ana_world [lit "Ana"; [115; 237]])
     = Ret (Cancelled, ana_index) w' /\
     same_store (ana_world [lit "Ana"; [115; 237]]) w' /\
     stdout w' = stdout (ana_world [lit "Ana"; [115; 237]])
                 ++ [Prompt Ask_nombre;
                     Prompt (Ask_borrar (strip (lit "Ana"))); Cancelado]).
Proof.
  apply (delete_client_iff_si lower_latin1 ana_index
           (ana_world [lit "Ana"; [115; 237]]) (lit "Ana") [115; 237] []
           ana_file);
    [reflexivity | run | run | run | eexists; run].
Defined.

(** The answers the program takes as a confirmation, and some it does
    not: "si", " SI " and "Si" confirm; "sí" (with an accent), "yes",
    "s", "no" and the empty answer cancel. *)
Example confirmation_answers :
  Forall (fun a => lower_latin1 (strip a) = lit "si")
    [lit "si"; lit " SI "; lit "Si"] /\
  Forall (fun a => lower_latin1 (strip a) <> lit "si")
    [[115; 237]; lit "yes"; lit "s"; lit "no"; []; lit "s i"].
Proof.
  split; repeat (apply List.Forall_cons; [run|]); apply List.Forall_nil.
Qed.

Lemma modify_client_contact_frame_witness :
  exists w' d',
    modify_client lower_latin1 ana_index
      (ana_world [lit "Ana"; lit "1"; lit "555 1234"])
    = Ret Done w' /\
    clients_dir w' !! ana_file = Some (Json_text (JObj d')) /\
    dict_get (lit "contacto") d' = Some (JStr (strip (lit "555 1234"))) /\
    (forall k, k <> lit "contacto" -> dict_get k d' = dict_get k ana_record) /\
    (is_Some (dict_get (lit "contacto") ana_record) ->
     List.map fst d' = List.map fst ana_record) /\
    (forall g, g <> ana_file ->
       clients_dir w' !! g
       = clients_dir (ana_world [lit "Ana"; lit "1"; lit "555 1234"]) !! g) /\
    index_file w'
    = index_file (ana_world [lit "Ana"; lit "1"; lit "555 1234"]).
Proof.
  apply (modify_client_contact_frame lower_latin1 ana_index
           (ana_world [lit "Ana"; lit "1"; lit "555 1234"])
           (lit "Ana") (lit "1") (lit "555 1234") [] ana_file ana_record);
    [reflexivity | run | run | run | run | run | run].
Defined.

(** ** The further properties on sample data *)

Lemma normalize_name_second_pass_witness :
  normalize_name lower_latin1 (normalize_name lower_latin1 (lit "Ana !"))
  = strip (normalize_name lower_latin1 (lit "Ana !")) /\
  (normalize_name lower_latin1 (normalize_name lower_latin1 (lit "Ana !"))
   = normalize_name lower_latin1 (lit "Ana !")
   <-> strip (normalize_name lower_latin1 (lit "Ana !"))
       = normalize_name lower_latin1 (lit "Ana !")) /\
  normalize_name lower_latin1
    (normalize_name lower_latin1 (normalize_name lower_latin1 (lit "Ana !")))
  = normalize_name lower_latin1 (normalize_name lower_latin1 (lit "Ana !")).
Proof.
  apply (normalize_name_second_pass lower_latin1 (lit "Ana !")).
  exact lower_latin1_fixes_keys.
Defined.

Lemma create_then_consult_witness :
  exists index' w1 w2,
    create_client lower_latin1 ∅
      (empty_world [lit "Ana"; []; []; lit "Internet"; lit "Alta"; lit " ANA "])
    = Ret (Done, index') w1 /\
    consult_client lower_latin1 index' w1 = Ret Done w2 /\
    queries_log w2 = [consulta_line (demo_clock 2) (lit "ANA")].
Proof.
  destruct (create_then_consult lower_latin1 ∅
              (empty_world [lit "Ana"; []; []; lit "Internet"; lit "Alta";
                            lit " ANA "])
              (lit "Ana") [] [] (lit "Internet") (lit "Alta") (lit " ANA ") [])
    as (index' & w1 & w2 & d & seed & H1 & H2 & _ & _ & _ & _ & _ & H3);
    [reflexivity | run | run | run | run | run | run |].
  exists index', w1, w2. split; [exact H1|]. split; [exact H2 | exact H3].
Defined.


Lemma corrupt_record_raises_witness :
  (exists w', consult_client lower_latin1 ana_index (corrupt_world [lit "Ana"])
              = Raise JSONDecodeError w' /\
              same_store (corrupt_world [lit "Ana"]) w' /\ stdin w' = []) /\
  (exists w', modify_client lower_latin1 ana_index (corrupt_world [lit "Ana"])
              = Raise JSONDecodeError w' /\
              same_store (corrupt_world [lit "Ana"]) w' /\ stdin w' = []).
Proof.
  apply (corrupt_record_raises lower_latin1 ana_index
           (corrupt_world [lit "Ana"]) (lit "Ana") [] ana_file);
    [reflexivity | run | run | run | run].
Defined.

Lemma modify_client_validation_witness :
  exists w',
    modify_client lower_latin1 ana_index (ana_world [lit "Ana"; lit "3"])
    = Ret Invalid_selector w' /\
    same_store (ana_world [lit "Ana"; lit "3"]) w' /\
    last (stdout w') = Some Opcion_invalida.
Proof.
  destruct (modify_client_validation lower_latin1 ana_index
              (ana_world [lit "Ana"; lit "3"]) (lit "Ana") (lit "3") []
              ana_file (JObj ana_record)) as [H _];
    [reflexivity | run | run | run | run |].
  apply H; run.
Defined.

Lemma create_client_validation_witness :
  exists w',
    create_client lower_latin1 ana_index
      (ana_world [lit "Luis"; []; []; lit "  "])
    = Ret (Empty_input, ana_index) w' /\
    same_store (ana_world [lit "Luis"; []; []; lit "  "]) w' /\
    uuid4_calls w' = uuid4_calls (ana_world [lit "Luis"; []; []; lit "  "]) /\
    last (stdout w') = Some No_puede_ir_vacio.
Proof.
  destruct (create_client_validation lower_latin1 ana_index
              (ana_world [lit "Luis"; []; []; lit "  "])
              (lit "Luis") [] [] (lit "  ") []) as [H _];
    [reflexivity | run | run |].
  apply H. run.
Defined.

Lemma index_file_follows_index_witness :
  exists index' w',
    create_client lower_latin1 ana_index
      (ana_world [lit "Luis"; []; []; lit "TV"; lit "Alta"])
    = Ret (Done, index') w' /\
    in_sync index' w'.
Proof.
  destruct (index_file_follows_index lower_latin1 ana_index
              (ana_world [lit "Luis"; []; []; lit "TV"; lit "Alta"]))
    as [H _]; [run|].
  do 2 eexists. split; [vm_compute; reflexivity|].
  eapply H. vm_compute. reflexivity.
Defined.

Lemma ana_resolvable (lines : list str) :
  resolvable ana_index (ana_world lines).
Proof.
  intros k f H. unfold ana_index in H.
  apply lookup_singleton_Some in H as [_ <-].
  split; [discriminate | eexists; vm_compute; reflexivity].
Qed.

Lemma ana_one_file_per_key : one_file_per_key ana_index.
Proof.
  intros k1 k2 f H1 H2. unfold ana_index in H1, H2.
  apply lookup_singleton_Some in H1 as [<- _].
  apply lookup_singleton_Some in H2 as [<- _]. reflexivity.
Qed.

Lemma create_modify_keep_resolvable_witness :
  exists index' w',
    create_client lower_latin1 ana_index
      (ana_world [lit "Luis"; []; []; lit "TV"; lit "Alta"])
    = Ret (Done, index') w' /\
    resolvable index' w'.
Proof.
  destruct (create_modify_keep_resolvable lower_latin1 ana_index
              (ana_world [lit "Luis"; []; []; lit "TV"; lit "Alta"]))
    as [H _]; [apply ana_resolvable|].
  do 2 eexists. split; [vm_compute; reflexivity|].
  eapply H. vm_compute. reflexivity.
Defined.

Lemma delete_keeps_resolvable_witness :
  exists index' w',
    delete_client lower_latin1 ana_index (ana_world [lit "Ana"; lit "si"])
    = Ret (Done, index') w' /\
    resolvable index' w' /\ one_file_per_key index'.
Proof.
  do 2 eexists. split; [vm_compute; reflexivity|].
  eapply (delete_keeps_resolvable lower_latin1 ana_index
            (ana_world [lit "Ana"; lit "si"]) Done);
    [apply ana_resolvable | apply ana_one_file_per_key
    | vm_compute; reflexivity].
Defined.

Lemma delete_client_frame_witness :
  exists index' w',
    delete_client lower_latin1 ana_index (ana_world [lit "Ana"; lit "si"])
    = Ret (Done, index') w' /\
    index' !! normalize_name lower_latin1 (lit "Ana") = None /\
    clients_dir w' !! ana_file = None /\
    (forall k, k <> normalize_name lower_latin1 (lit "Ana") ->
               index' !! k = ana_index !! k) /\
    (forall g, g <> ana_file ->
               clients_dir w' !! g
               = clients_dir (ana_world [lit "Ana"; lit "si"]) !! g) /\
    index_file w' = Some (Index_text index') /\
    queries_log w' = queries_log (ana_world [lit "Ana"; lit "si"]).
Proof.
  apply (delete_client_frame lower_latin1 ana_index
           (ana_world [lit "Ana"; lit "si"]) (lit "Ana") (lit "si") []
           ana_file);
    [reflexivity | run | run | run | eexists; run | run].
Defined.

Lemma create_client_frame_witness :
  exists index' w',
    create_client lower_latin1 ana_index
      (ana_world [lit "Luis"; []; []; lit "TV"; lit "Alta"])
    = Ret (Done, index') w' /\
    index' !! lit "luis" = Some (lit "id2_luis.json") /\
    index' !! lit "ana" = Some ana_file /\
    clients_dir w' !! ana_file = Some (Json_text (JObj ana_record)).
Proof.
  destruct (create_client_frame lower_latin1 ana_index
              (ana_world [lit "Luis"; []; []; lit "TV"; lit "Alta"])
              (lit "Luis") [] [] (lit "TV") (lit "Alta") [])
    as (index' & w' & Hrun & Hk & _ & Hidx & Hfiles & _);
    [reflexivity | run | run | run | run |].
  exists index', w'. split; [exact Hrun|].
  split; [exact Hk|].
  split; [rewrite Hidx by (vm_compute; discriminate); vm_compute; reflexivity|].
  rewrite Hfiles by (vm_compute; discriminate). vm_compute. reflexivity.
Defined.

Lemma main_ends_on_finite_input_witness :
  ended (main lower_latin1 4
           (empty_world [lit "1"; []; lit "9"])) /\
  main lower_latin1 4 (empty_world [lit "1"; []; lit "9"])
  = main lower_latin1 100 (empty_world [lit "1"; []; lit "9"]).
Proof.
  destruct (main_ends_on_finite_input lower_latin1 4 ∅
              (empty_world [lit "1"; []; lit "9"]))
    as (_ & H1 & H2); [vm_compute; lia|].
  split; [exact H1|]. apply H2. lia.
Defined.

Lemma create_twice_conflict_witness :
  exists index1 w1 w2,
    create_client lower_latin1 ∅
      (empty_world [lit "Ana"; []; []; lit "Internet"; lit "Alta"; lit "ana"])
    = Ret (Done, index1) w1 /\
    create_client lower_latin1 index1 w1 = Ret (Conflict, index1) w2 /\
    same_store w1 w2 /\
    uuid4_calls w2 = uuid4_calls w1.
Proof.
  apply (create_twice_conflict lower_latin1 ∅
           (empty_world [lit "Ana"; []; []; lit "Internet"; lit "Alta";
                         lit "ana"])
           (lit "Ana") [] [] (lit "Internet") (lit "Alta") (lit "ana") []);
    [reflexivity | run | run | run | run | run | run].
Defined.

Lemma create_then_delete_restores_witness :
  exists index1 w1 w2,
    create_client lower_latin1 ana_index
      (ana_world [lit "Luis"; []; []; lit "TV"; lit "Alta"; lit "LUIS"; lit "si"])
    = Ret (Done, index1) w1 /\
    delete_client lower_latin1 index1 w1 = Ret (Done, ana_index) w2 /\
    clients_dir w2
    = clients_dir (ana_world [lit "Luis"; []; []; lit "TV"; lit "Alta";
                              lit "LUIS"; lit "si"]) /\
    index_file w2 = Some (Index_text ana_index) /\
    queries_log w2
    = queries_log (ana_world [lit "Luis"; []; []; lit "TV"; lit "Alta";
                              lit "LUIS"; lit "si"]) /\
    stdin w2 = [].
Proof.
  apply (create_then_delete_restores lower_latin1 ana_index
           (ana_world [lit "Luis"; []; []; lit "TV"; lit "Alta"; lit "LUIS";
                       lit "si"])
           (lit "Luis") [] [] (lit "TV") (lit "Alta") (lit "LUIS") (lit "si")
           []);
    [reflexivity | run | run | run | run | run | run | run | run].
Defined.

Lemma delete_then_create_witness :
  exists index1 w1 index2 w2 fname,
    delete_client lower_latin1 ana_index
      (ana_world [lit "Ana"; lit "si"; lit "ANA"; []; []; lit "TV"; lit "Alta"])
    = Ret (Done, index1) w1 /\
    create_client lower_latin1 index1 w1 = Ret (Done, index2) w2 /\
    find_client_file lower_latin1 index2 (lit "Ana") w2
    = Ret (Some fname) w2 /\
    fname = uuid4_source
              (ana_world [lit "Ana"; lit "si"; lit "ANA"; []; []; lit "TV";
                          lit "Alta"])
              (uuid4_calls
                 (ana_world [lit "Ana"; lit "si"; lit "ANA"; []; []; lit "TV";
                             lit "Alta"]))
            ++ lit "_" ++ slugify lower_latin1 (lit "ANA") ++ lit ".json".
Proof.
  apply (delete_then_create lower_latin1 ana_index
           (ana_world [lit "Ana"; lit "si"; lit "ANA"; []; []; lit "TV";
                       lit "Alta"])
           (lit "Ana") (lit "si") (lit "ANA") [] [] (lit "TV") (lit "Alta")
           [] ana_file);
    [reflexivity | run | run | run | eexists; run | run | run | run | run
    | run].
Defined.

Lemma stale_entry_is_stuck_witness :
  (exists w', consult_client lower_latin1 ana_index (stale_world [lit "Ana"])
              = Ret Not_found w' /\
              same_store (stale_world [lit "Ana"]) w') /\
  (exists w', delete_client lower_latin1 ana_index (stale_world [lit "Ana"])
              = Ret (Not_found, ana_index) w' /\
              same_store (stale_world [lit "Ana"]) w') /\
  (exists w', create_client lower_latin1 ana_index (stale_world [lit "Ana"])
              = Ret (Conflict, ana_index) w' /\
              same_store (stale_world [lit "Ana"]) w').
Proof.
  apply (stale_entry_is_stuck lower_latin1 ana_index
           (stale_world [lit "Ana"]) (lit "Ana") [] ana_file);
    [reflexivity | run | run | run].
Defined.
